(** * addrservice.app: the HTTP handler layer of the address-book service

    A shallow embedding of [addrservice/app.py].  Every request handler of the
    module is a computation in a small state-and-exception monad whose state
    holds the handler object ([self]), the state of the storage collaborator
    and a chronological trace of what the request did to the outside world
    (log records and collaborator calls).

    What belongs to the hosting framework (Tornado) or to the Python runtime
    is kept apart from the embedded source:
    - [PyRuntime] gathers the runtime functions the module calls
      ([bytes.decode], [json.loads], [traceback.format_exception], [repr],
      the rendering of a float by [str.format]);
    - [AddressBookService] is the collaborator of [addrservice/service.py],
      taken as a parameter: only its interface is consumed here;
    - the section "Framework protocol" writes out the part of
      [tornado.web.RequestHandler] the handlers rely on ([set_status],
      [set_header], [finish], [send_error], the dispatch of [_execute]),
      as Tornado 6.5 has it: [set_header] raises [ValueError] on a value
      with a control character, [send_error] takes the reason of an
      [HTTPError] only when it is not empty, and [set_status] replaces a
      reason that is not a valid reason phrase by ["Unknown"]. *)

From Stdlib Require Import ZArith List String Ascii Bool Lia.
From Stdlib Require Import DecimalString Floats.SpecFloat.
Import ListNotations.
Open Scope string_scope.
Open Scope Z_scope.

Set Implicit Arguments.
Set Warnings "-register-all".

(** ** Python values *)

(** What [json.loads] can return, and what [finish] serialises. A [dict]
    keeps its insertion order, hence the association list. *)
Inductive json : Type :=
| JNull
| JBool (b : bool)
| JInt (n : Z)
| JFloat (f : spec_float)
| JStr (s : string)
| JList (l : list json)
| JDict (d : list (string * json)).

Definition dict := list (string * json).

(** [d[key]] on a dict: the value, or nothing where Python raises KeyError. *)
Fixpoint dict_get (key : string) (d : dict) : option json :=
  match d with
  | [] => None
  | (k, v) :: d' => if String.eqb k key then Some v else dict_get key d'
  end.


(** Python truth value of an object, as [x if v else y] tests it. *)
Definition truthy (v : json) : bool :=
  match v with
  | JNull => false
  | JBool b => b
  | JInt n => negb (n =? 0)
  | JFloat (S754_zero _) => false
  | JFloat _ => true
  | JStr s => negb (String.eqb s "")
  | JList l => match l with [] => false | _ => true end
  | JDict d => match d with [] => false | _ => true end
  end.

Definition is_dict (v : json) : bool :=
  match v with JDict _ => true | _ => false end.

(** [str(n)] for an int. *)
Definition str_of_int (n : Z) : string := NilZero.string_of_int (Z.to_int n).

(** ** Exceptions *)

(** The exception classes the module names or can meet, with the part of
    the class hierarchy that decides which [except] clause fires:
    [JSONDecodeError] and [UnicodeDecodeError] derive from [ValueError],
    [KeyError] from [LookupError], everything from [Exception]. *)
Inductive exc_class : Type :=
| Exception
| ValueError
| JSONDecodeError
| UnicodeDecodeError
| TypeError
| LookupError
| KeyError
| RuntimeError
| AttributeError.

Definition exc_class_eqb (a b : exc_class) : bool :=
  match a, b with
  | Exception, Exception | ValueError, ValueError
  | JSONDecodeError, JSONDecodeError
  | UnicodeDecodeError, UnicodeDecodeError
  | TypeError, TypeError | LookupError, LookupError
  | KeyError, KeyError | RuntimeError, RuntimeError
  | AttributeError, AttributeError => true
  | _, _ => false
  end.

Definition base_class (c : exc_class) : option exc_class :=
  match c with
  | Exception => None
  | ValueError | TypeError | LookupError | RuntimeError | AttributeError =>
      Some Exception
  | JSONDecodeError | UnicodeDecodeError => Some ValueError
  | KeyError => Some LookupError
  end.

(** [issubclass c k], by walking up the (depth at most three) hierarchy. *)
Definition issubclass (c k : exc_class) : bool :=
  exc_class_eqb c k
  || match base_class c with
     | None => false
     | Some b =>
         exc_class_eqb b k
         || match base_class b with
            | None => false
            | Some b' => exc_class_eqb b' k
            end
     end.

(** A raised exception: a Python one, with the text [str(e)] gives, or
    [tornado.web.HTTPError(status_code, reason=reason)]. *)
Inductive pyexc : Type :=
| PyExc (cls : exc_class) (str : string)
| HTTPError (status_code : Z) (reason : option string).

Definition isinstance (e : pyexc) (k : exc_class) : bool :=
  match e with
  | PyExc c _ => issubclass c k
  | HTTPError _ _ => exc_class_eqb k Exception
  end.

(** [tornado.httputil.responses.get(code, "Unknown")], on the codes this
    application produces. *)
Definition responses (code : Z) : string :=
  if code =? 200 then "OK"
  else if code =? 201 then "Created"
  else if code =? 204 then "No Content"
  else if code =? 400 then "Bad Request"
  else if code =? 404 then "Not Found"
  else if code =? 405 then "Method Not Allowed"
  else if code =? 500 then "Internal Server Error"
  else if code =? 503 then "Service Unavailable"
  else "Unknown".

(** [str(e)]. *)
Definition str_of_exc (e : pyexc) : string :=
  match e with
  | PyExc _ s => s
  | HTTPError c r =>
      "HTTP " ++ str_of_int c ++ ": "
      ++ match r with Some r => r | None => responses c end
  end.

Inductive outcome (A : Type) : Type :=
| Ok (a : A)
| Raise (e : pyexc).
Arguments Ok {A} a.
Arguments Raise {A} e.

(** ** Requests, settings, log records *)

(** [tornado.web.RequestHandler.SUPPORTED_METHODS]: a request with another
    method is turned down before a handler's [prepare] runs. *)
Inductive http_method : Type := GET | HEAD | POST | DELETE | PATCH | PUT | OPTIONS.

Definition method_name (m : http_method) : string :=
  match m with
  | GET => "GET" | HEAD => "HEAD" | POST => "POST" | DELETE => "DELETE"
  | PATCH => "PATCH" | PUT => "PUT" | OPTIONS => "OPTIONS"
  end.

Record HTTPServerRequest : Type := {
  method : http_method;
  uri : string;
  remote_ip : string;
  body : list Byte.byte
}.

(** [request.path]: the URI up to its first question mark. *)
Fixpoint path_of_uri (u : string) : string :=
  match u with
  | EmptyString => EmptyString
  | String c u' => if Ascii.eqb c "?" then EmptyString else String c (path_of_uri u')
  end.

Definition path (r : HTTPServerRequest) : string := path_of_uri (uri r).

Record Settings : Type := {
  compress_response : bool;
  serve_traceback : bool
}.

Inductive log_level : Type := DEBUG | INFO | WARNING | ERROR.

Record LogRecord : Type := {
  lr_logger : string;
  lr_level : log_level;
  lr_msg : string;
  lr_exc_info : bool
}.

(** The calls a handler makes on the collaborator, with their arguments. *)
Inductive service_call : Type :=
| Call_uptime_millis
| Call_status
| Call_get_all_addresses
| Call_post_address (addr : json)
| Call_get_address (id : string)
| Call_put_address (id : string) (addr : json)
| Call_delete_address (id : string).

Inductive event : Type :=
| Logged (r : LogRecord)
| Called (c : service_call).

(** ** The Python runtime *)

Record PyRuntime : Type := {
  (** [b.decode('utf-8')]: the text, or the message of the
      [UnicodeDecodeError]. *)
  bytes_decode_utf8 : list Byte.byte -> string + string;
  (** [json.loads(s)]: the value, or the message of the [JSONDecodeError]. *)
  json_loads : string -> json + string;
  (** [traceback.format_exception] applied to the exception's info. *)
  format_exception : pyexc -> list string;
  (** [repr(s)] of a str. *)
  str_repr : string -> string;
  (** The text [str.format] gives for [1000.0 * request.request_time()]. *)
  request_time_millis : HTTPServerRequest -> string
}.

(** ** The storage collaborator *)

(** The interface of [AddressBookService] the handlers consume, over the
    collaborator's own state [S].  The awaited methods may raise. *)
Record AddressBookService (S : Type) : Type := {
  uptime_millis : S -> Z;
  status : S -> outcome dict * S;
  get_all_addresses : S -> outcome dict * S;
  post_address : json -> S -> outcome string * S;
  get_address : string -> S -> outcome dict * S;
  put_address : string -> json -> S -> outcome unit * S;
  delete_address : string -> S -> outcome unit * S
}.

(** ** Handler objects and the state of one request *)

Inductive handler_class : Type :=
| DefaultRequestHandler
| LivenessRequestHandler
| ReadinessRequestHandler
| AddressBookRequestHandler
| AddressBookEntryRequestHandler.

(** The attributes of a handler object: those [initialize] sets and those
    of [tornado.web.RequestHandler] the module reads or writes. *)
Record RequestHandler : Type := {
  request : HTTPServerRequest;
  settings : Settings;
  config : option dict;
  logger : option string;
  _status_code : Z;
  _reason : string;
  _headers : list (string * string);
  _write_buffer : list dict;
  _finished : bool
}.

Record state (S : Type) : Type := {
  self : RequestHandler;
  service_state : S;
  events : list event
}.

(** ** Route patterns *)

(** The fragment of regular expressions the route table is written in: a
    character, an optional character, and a named group of one or more
    characters of a class. *)
Inductive re_atom : Type :=
| Chr (c : ascii)
| OptChr (c : ascii)
| NamedPlus (name : string) (cls : ascii -> bool).

Definition regex := list re_atom.

Fixpoint lit (s : string) : regex :=
  match s with
  | EmptyString => []
  | String c s' => Chr c :: lit s'
  end.

Definition snoc (s : string) (c : ascii) : string := s ++ String c EmptyString.

(** One or more characters of [cls], as many as possible first; [k] matches
    what follows the group, given the rest of the input and the group. *)
Fixpoint plus_loop {R} (cls : ascii -> bool) (k : string -> string -> option R)
    (s taken : string) : option R :=
  match s with
  | String c s' =>
      if cls c then
        match plus_loop cls k s' (snoc taken c) with
        | Some g => Some g
        | None => k s' (snoc taken c)
        end
      else None
  | EmptyString => None
  end.

(** Anchored match of the whole string (the framework closes every route
    pattern with an end anchor), greedy with backtracking, returning the
    named groups. *)
Fixpoint re_match (p : regex) (s : string) (groups : list (string * string))
  : option (list (string * string)) :=
  match p with
  | [] => match s with EmptyString => Some groups | String _ _ => None end
  | Chr c :: p' =>
      match s with
      | String c' s' => if Ascii.eqb c c' then re_match p' s' groups else None
      | EmptyString => None
      end
  | OptChr c :: p' =>
      let taken :=
        match s with
        | String c' s' => if Ascii.eqb c c' then re_match p' s' groups else None
        | EmptyString => None
        end in
      match taken with
      | Some g => Some g
      | None => re_match p' s groups
      end
  | NamedPlus name cls :: p' =>
      plus_loop cls
        (fun rest group => re_match p' rest (groups ++ [(name, group)]))
        s EmptyString
  end.

Definition in_range (lo hi c : ascii) : bool :=
  (nat_of_ascii lo <=? nat_of_ascii c)%nat && (nat_of_ascii c <=? nat_of_ascii hi)%nat.

(** The class [[a-zA-Z0-9-]]. *)
Definition id_char (c : ascii) : bool :=
  in_range "a" "z" c || in_range "A" "Z" c || in_range "0" "9" c || Ascii.eqb c "-".

Fixpoint all_chars (cls : ascii -> bool) (s : string) : bool :=
  match s with
  | EmptyString => true
  | String c s' => cls c && all_chars cls s'
  end.

(** An entry identifier: a string matching [[a-zA-Z0-9-]+]. *)
Definition valid_id (id : string) : bool :=
  negb (String.eqb id "") && all_chars id_char id.

(** [r'/addressbook/?'] *)
Definition ADDRESSBOOK_REGEX : regex := (lit "/addressbook" ++ [OptChr "/"])%list.

(** [r'/addressbook/(?P<id>[a-zA-Z0-9-]+)/?'] *)
Definition ADDRESSBOOK_ENTRY_REGEX : regex :=
  (lit "/addressbook/" ++ [NamedPlus "id" id_char; OptChr "/"])%list.

(** [r'/addressbook/{id}'.format(id=id)] *)
Definition ADDRESSBOOK_ENTRY_URI_FORMAT_STR (id : string) : string :=
  "/addressbook/" ++ id.

(** ** The handler monad *)

(** A computation on the state of one request that returns or raises.
    A raised exception keeps the state reached so far, as in Python. *)
Definition M (S A : Type) : Type := state S -> outcome A * state S.

Definition ret {S A} (a : A) : M S A := fun st => (Ok a, st).

Definition bind {S A B} (m : M S A) (k : A -> M S B) : M S B :=
  fun st =>
    match m st with
    | (Ok a, st') => k a st'
    | (Raise e, st') => (Raise e, st')
    end.

Definition raise {S A} (e : pyexc) : M S A := fun st => (Raise e, st).

(** [try: m except ...: h e]; a clause list that does not catch [e]
    re-raises it in [h]. *)
Definition try_except {S A} (m : M S A) (h : pyexc -> M S A) : M S A :=
  fun st =>
    match m st with
    | (Ok a, st') => (Ok a, st')
    | (Raise e, st') => h e st'
    end.

Declare Scope py_scope.
Delimit Scope py_scope with py.
Notation "x <- m ;; k" := (bind m (fun x => k))
  (at level 61, m at next level, right associativity) : py_scope.
Notation "m ;; k" := (bind m (fun _ => k))
  (at level 61, right associativity) : py_scope.
Open Scope py_scope.

Definition get_self {S} : M S RequestHandler := fun st => (Ok (self st), st).

Definition modify_self {S} (f : RequestHandler -> RequestHandler) : M S unit :=
  fun st =>
    (Ok tt, {| self := f (self st);
               service_state := service_state st;
               events := events st |}).

Definition emit {S} (e : event) : M S unit :=
  fun st =>
    (Ok tt, {| self := self st;
               service_state := service_state st;
               events := (events st ++ [e])%list |}).

(** [self.service.op(...)], awaited where the method is asynchronous: the
    call is recorded, then runs on the collaborator's state. *)
Definition call_service {S A} (c : service_call) (op : S -> outcome A * S)
  : M S A :=
  fun st =>
    let (r, s') := op (service_state st) in
    (r, {| self := self st;
           service_state := s';
           events := (events st ++ [Called c])%list |}).

(** [logger.level(msg, exc_info=...)] *)
Definition log {S} (name : string) (lvl : log_level) (msg : string)
    (exc_info : bool) : M S unit :=
  emit (Logged {| lr_logger := name; lr_level := lvl;
                  lr_msg := msg; lr_exc_info := exc_info |}).

(** ** Framework protocol

    The part of [tornado.web.RequestHandler] and [tornado.web.Application]
    the module builds on.  The default headers [Server] and [Date] are left
    out of [clear]; the framework's own loggers are not part of the trace;
    [send_error] skips [write_error] for the status 304, which no handler
    of this module raises, and that case is left out. *)

Definition char_code (c : ascii) : N := N_of_ascii c.

(** [RequestHandler._VALID_HEADER_CHARS]: a header value is made of tabs
    and of the characters from the space to the tilde and from 0x80 on. *)
Definition header_char (c : ascii) : bool :=
  (char_code c =? 9)%N
  || ((32 <=? char_code c)%N && (char_code c <=? 126)%N)
  || (128 <=? char_code c)%N.

Fixpoint header_value_ok (value : string) : bool :=
  match value with
  | EmptyString => true
  | String c value' => header_char c && header_value_ok value'
  end.

(** The test of [set_status] on a reason: no ["<"], and one or more
    characters of [httputil._ABNF.reason_phrase] (tab, space, the visible
    characters, 0x80 and above). *)
Definition reason_char (c : ascii) : bool :=
  header_char c && negb (Ascii.eqb c "<").

Fixpoint reason_chars_ok (reason : string) : bool :=
  match reason with
  | EmptyString => true
  | String c reason' => reason_char c && reason_chars_ok reason'
  end.

Definition reason_phrase_ok (reason : string) : bool :=
  negb (String.eqb reason "") && reason_chars_ok reason.

(** The reason [set_status(status_code, reason)] stores. *)
Definition stored_reason (status_code : Z) (reason : option string) : string :=
  match reason with
  | Some r => if reason_phrase_ok r then r else "Unknown"
  | None => responses status_code
  end.

Fixpoint assoc_set {V} (key : string) (v : V) (l : list (string * V))
  : list (string * V) :=
  match l with
  | [] => [(key, v)]
  | (k, w) :: l' =>
      if String.eqb k key then (k, v) :: l' else (k, w) :: assoc_set key v l'
  end.

Fixpoint assoc_get {V} (key : string) (l : list (string * V)) : option V :=
  match l with
  | [] => None
  | (k, w) :: l' => if String.eqb k key then Some w else assoc_get key l'
  end.

Definition with_status (c : Z) (r : string) (h : RequestHandler) :=
  {| request := request h; settings := settings h; config := config h;
     logger := logger h; _status_code := c; _reason := r;
     _headers := _headers h; _write_buffer := _write_buffer h;
     _finished := _finished h |}.

Definition with_headers (hs : list (string * string)) (h : RequestHandler) :=
  {| request := request h; settings := settings h; config := config h;
     logger := logger h; _status_code := _status_code h; _reason := _reason h;
     _headers := hs; _write_buffer := _write_buffer h;
     _finished := _finished h |}.

Definition with_write_buffer (b : list dict) (h : RequestHandler) :=
  {| request := request h; settings := settings h; config := config h;
     logger := logger h; _status_code := _status_code h; _reason := _reason h;
     _headers := _headers h; _write_buffer := b;
     _finished := _finished h |}.

Definition with_finished (f : bool) (h : RequestHandler) :=
  {| request := request h; settings := settings h; config := config h;
     logger := logger h; _status_code := _status_code h; _reason := _reason h;
     _headers := _headers h; _write_buffer := _write_buffer h;
     _finished := f |}.

Definition with_attributes (cfg : option dict) (lg : option string)
    (h : RequestHandler) :=
  {| request := request h; settings := settings h; config := cfg;
     logger := lg; _status_code := _status_code h; _reason := _reason h;
     _headers := _headers h; _write_buffer := _write_buffer h;
     _finished := _finished h |}.

Definition default_headers : list (string * string) :=
  [("Content-Type", "text/html; charset=UTF-8")].

(** [RequestHandler.__init__], up to the call of [initialize]. *)
Definition new_handler (app_settings : Settings) (req : HTTPServerRequest)
  : RequestHandler :=
  {| request := req; settings := app_settings; config := None; logger := None;
     _status_code := 200; _reason := responses 200;
     _headers := default_headers; _write_buffer := []; _finished := false |}.

(** [handler.get_status()] *)
Definition get_status (h : RequestHandler) : Z := _status_code h.

Definition newline : string := String (ascii_of_nat 10) EmptyString.

(** The keyword arguments a route hands to [initialize], and those of the
    default handler. *)
Record init_kwargs : Type := {
  kw_config : dict;
  kw_logger : string
}.

Record default_kwargs : Type := {
  dk_logger : string;
  dk_status_code : Z;
  dk_message : string
}.

Record Application : Type := {
  handlers : list (regex * handler_class * init_kwargs);
  app_settings : Settings;
  default_handler_class : handler_class;
  default_handler_args : default_kwargs
}.

Section Handlers.

(** The collaborator's state, the runtime, the collaborator injected into
    the application, and [addrservice.LOGGER_NAME]. *)
Variable S : Type.
Variable rt : PyRuntime.
Variable service : AddressBookService S.
Variable LOGGER_NAME : string.

(** *** Access logger *)

(** [log_function(handler)], the application's [log_function] setting,
    which [finish] calls through [Application.log_request]. *)
Definition log_function (handler : RequestHandler) : M S unit :=
  let status := get_status handler in
  let request_time := request_time_millis rt (request handler) in
  let msg :=
    "RESPOSE: " ++ str_of_int status
    ++ " " ++ method_name (method (request handler))
    ++ " " ++ uri (request handler)
    ++ " (" ++ remote_ip (request handler) ++ ") "
    ++ request_time ++ "ms" in
  let logger :=
    match logger handler with Some l => l | None => LOGGER_NAME end in
  if get_status handler <? 400 then log logger INFO msg true
  else if get_status handler <? 500 then log logger WARNING msg true
  else log logger ERROR msg true.

(** *** Response primitives *)

Definition set_status (status_code : Z) (reason : option string) : M S unit :=
  modify_self (with_status status_code (stored_reason status_code reason)).

(** [set_header(name, value)] with a str: an unsafe value raises
    [ValueError("Unsafe header value %r", value)], whose text is that of
    its two arguments. *)
Definition set_header (name value : string) : M S unit :=
  if header_value_ok value then
    modify_self (fun h => with_headers (assoc_set name value (_headers h)) h)
  else
    raise (PyExc ValueError
             ("('Unsafe header value %r', " ++ str_repr rt value ++ ")")).

(** [write(chunk)] with a dict: the chunk is sent as JSON. *)
Definition write (chunk : dict) : M S unit :=
  set_header "Content-Type" "application/json; charset=UTF-8" ;;
  modify_self (fun h => with_write_buffer (_write_buffer h ++ [chunk])%list h).

(** [clear()]: headers and body of the response are reset. *)
Definition clear : M S unit :=
  modify_self
    (fun h => with_status 200 (responses 200)
                (with_write_buffer [] (with_headers default_headers h))).

(** [BaseRequestHandler.on_finish] *)
Definition BaseRequestHandler_on_finish : M S unit := ret tt.

(** [finish(chunk)]: writes the chunk if any, closes the response, then
    runs [on_finish] and the access logger. *)
Definition finish (chunk : option dict) : M S unit :=
  h <- get_self ;;
  if _finished h then raise (PyExc RuntimeError "finish() called twice")
  else
    match chunk with Some d => write d | None => ret tt end ;;
    modify_self (with_finished true) ;;
    BaseRequestHandler_on_finish ;;
    h' <- get_self ;;
    log_function h'.

(** *** BaseRequestHandler *)

Definition BaseRequestHandler_initialize (kw : init_kwargs)
    (h : RequestHandler) : RequestHandler :=
  with_attributes (Some (kw_config kw)) (Some (kw_logger kw)) h.

Definition logger_debug (msg : string) : M S unit :=
  h <- get_self ;;
  match logger h with
  | Some l => log l DEBUG msg false
  | None => raise (PyExc AttributeError "logger")
  end.

Definition BaseRequestHandler_prepare : M S unit :=
  h <- get_self ;;
  let msg :=
    "REQUEST: " ++ method_name (method (request h))
    ++ " " ++ uri (request h)
    ++ " (" ++ remote_ip (request h) ++ ")" in
  logger_debug msg ;;
  ret tt.

(** [write_error(status_code, **kwargs)]; [exc_info] is the entry of that
    name in [kwargs], if there is one. *)
Definition BaseRequestHandler_write_error (status_code : Z)
    (exc_info : option pyexc) : M S unit :=
  set_header "Content-Type" "application/json; charset=UTF-8" ;;
  h <- get_self ;;
  let body : dict :=
    [ ("method", JStr (method_name (method (request h))));
      ("uri", JStr (path (request h)));
      ("code", JInt status_code);
      ("message", JStr (_reason h)) ] in
  let body :=
    match serve_traceback (settings h), exc_info with
    | true, Some e =>
        let trace := String.concat newline (format_exception rt e) in
        assoc_set "trace" (JStr trace) body
    | _, _ => body
    end in
  finish (Some body).

(** *** DefaultRequestHandler *)

Definition DefaultRequestHandler_initialize (kw : default_kwargs)
    (h : RequestHandler) : RequestHandler :=
  with_status (dk_status_code kw)
    (stored_reason (dk_status_code kw) (Some (dk_message kw)))
    (with_attributes (config h) (Some (dk_logger kw)) h).

Definition DefaultRequestHandler_prepare : M S unit :=
  h <- get_self ;;
  raise (HTTPError (_status_code h) (Some (_reason h))).

(** *** LivenessRequestHandler *)

Definition LivenessRequestHandler_get : M S unit :=
  let status := 200 in
  uptime <- call_service Call_uptime_millis
              (fun s => (Ok (uptime_millis service s), s)) ;;
  let info : dict := [("uptime", JInt uptime)] in
  set_status status None ;;
  finish (Some info).

(** *** ReadinessRequestHandler *)

Definition ReadinessRequestHandler_get : M S unit :=
  info <- call_service Call_status (status service) ;;
  ready <- match dict_get "ready" info with
           | Some v => ret v
           | None => raise (PyExc KeyError "'ready'")
           end ;;
  let status := if truthy ready then 200 else 503 in
  set_status status None ;;
  finish (Some info).

(** *** Request bodies *)

(** [self.request.body.decode('utf-8')] *)
Definition decode_body : M S string :=
  h <- get_self ;;
  match bytes_decode_utf8 rt (body (request h)) with
  | inl text => ret text
  | inr msg => raise (PyExc UnicodeDecodeError msg)
  end.

(** [json.loads(text)] *)
Definition loads (text : string) : M S json :=
  match json_loads rt text with
  | inl v => ret v
  | inr msg => raise (PyExc JSONDecodeError msg)
  end.

(** *** AddressBookRequestHandler *)

Definition AddressBookRequestHandler_get : M S unit :=
  all_addrs <- call_service Call_get_all_addresses (get_all_addresses service) ;;
  set_status 200 None ;;
  finish (Some all_addrs).

Definition AddressBookRequestHandler_post : M S unit :=
  try_except
    (text <- decode_body ;;
     addr <- loads text ;;
     id <- call_service (Call_post_address addr) (post_address service addr) ;;
     let addr_uri := ADDRESSBOOK_ENTRY_URI_FORMAT_STR id in
     set_status 201 None ;;
     set_header "Location" addr_uri ;;
     finish None)
    (fun e =>
       if isinstance e JSONDecodeError || isinstance e TypeError then
         raise (HTTPError 400 (Some "Invalid JSON body"))
       else if isinstance e ValueError then
         raise (HTTPError 400 (Some (str_of_exc e)))
       else raise e).

(** *** AddressBookEntryRequestHandler *)

Definition AddressBookEntryRequestHandler_get (id : string) : M S unit :=
  try_except
    (addr <- call_service (Call_get_address id) (get_address service id) ;;
     set_status 200 None ;;
     finish (Some addr))
    (fun e =>
       if isinstance e KeyError then
         raise (HTTPError 404 (Some (str_of_exc e)))
       else raise e).

Definition AddressBookEntryRequestHandler_put (id : string) : M S unit :=
  try_except
    (text <- decode_body ;;
     addr <- loads text ;;
     call_service (Call_put_address id addr) (put_address service id addr) ;;
     set_status 204 None ;;
     finish None)
    (fun e =>
       if isinstance e JSONDecodeError || isinstance e TypeError then
         raise (HTTPError 400 (Some "Invalid JSON body"))
       else if isinstance e KeyError then
         raise (HTTPError 404 (Some (str_of_exc e)))
       else if isinstance e ValueError then
         raise (HTTPError 400 (Some (str_of_exc e)))
       else raise e).

Definition AddressBookEntryRequestHandler_delete (id : string) : M S unit :=
  try_except
    (call_service (Call_delete_address id) (delete_address service id) ;;
     set_status 204 None ;;
     finish None)
    (fun e =>
       if isinstance e KeyError then
         raise (HTTPError 404 (Some (str_of_exc e)))
       else raise e).

(** *** Dispatch of one request *)

(** [prepare], by class: [DefaultRequestHandler] overrides the one it
    inherits, the other classes inherit [BaseRequestHandler.prepare]. *)
Definition prepare (cls : handler_class) : M S unit :=
  match cls with
  | DefaultRequestHandler => DefaultRequestHandler_prepare
  | _ => BaseRequestHandler_prepare
  end.

(** A path argument of the verb method, taken from the named groups. *)
Definition path_kwarg (name : string) (path_kwargs : list (string * string))
    : M S string :=
  match assoc_get name path_kwargs with
  | Some v => ret v
  | None => raise (PyExc TypeError ("missing argument " ++ name))
  end.

(** The method of the class named after the verb; a verb the class does
    not define is the framework's 405. *)
Definition verb_method (cls : handler_class) (m : http_method)
      (path_kwargs : list (string * string)) : M S unit :=
  match cls, m with
  | LivenessRequestHandler, GET => LivenessRequestHandler_get
  | ReadinessRequestHandler, GET => ReadinessRequestHandler_get
  | AddressBookRequestHandler, GET => AddressBookRequestHandler_get
  | AddressBookRequestHandler, POST => AddressBookRequestHandler_post
  | AddressBookEntryRequestHandler, GET =>
      id <- path_kwarg "id" path_kwargs ;; AddressBookEntryRequestHandler_get id
  | AddressBookEntryRequestHandler, PUT =>
      id <- path_kwarg "id" path_kwargs ;; AddressBookEntryRequestHandler_put id
  | AddressBookEntryRequestHandler, DELETE =>
      id <- path_kwarg "id" path_kwargs ;; AddressBookEntryRequestHandler_delete id
  | _, _ => raise (HTTPError 405 None)
  end.

(** [send_error(status_code, exc_info=...)]: the response built so far is
    dropped, the status is set, with the reason of the exception when it is
    an [HTTPError] with a reason that is not empty, and [write_error]
    produces the body. *)
Definition send_error (status_code : Z) (exc_info : option pyexc) : M S unit :=
  clear ;;
  let reason :=
    match exc_info with
    | Some (HTTPError _ (Some r)) => if String.eqb r "" then None else Some r
    | _ => None
    end in
  set_status status_code reason ;;
  BaseRequestHandler_write_error status_code exc_info ;;
  h <- get_self ;;
  if _finished h then ret tt else finish None.

(** [_handle_request_exception(e)] *)
Definition _handle_request_exception (e : pyexc) : M S unit :=
  h <- get_self ;;
  if _finished h then ret tt
  else
    match e with
    | HTTPError status_code _ => send_error status_code (Some e)
    | PyExc _ _ => send_error 500 (Some e)
    end.

(** What runs before any error handling: [prepare], then the verb. *)
Definition run_handler (cls : handler_class)
      (path_kwargs : list (string * string)) : M S unit :=
  prepare cls ;;
  h <- get_self ;;
  if _finished h then ret tt
  else verb_method cls (method (request h)) path_kwargs.

(** [_execute]: a raised exception becomes an error response. *)
Definition _execute (cls : handler_class)
      (path_kwargs : list (string * string)) : M S unit :=
  try_except (run_handler cls path_kwargs) _handle_request_exception.

(** *** The application *)

Definition make_addrservice_app (config : dict) (debug : bool)
      (logger : string) : Application :=
  let kwargs := {| kw_config := config; kw_logger := logger |} in
  {| handlers :=
       [ (lit "/healthz" ++ [OptChr "/"], LivenessRequestHandler, kwargs);
         (lit "/readiness" ++ [OptChr "/"], ReadinessRequestHandler, kwargs);
         (ADDRESSBOOK_REGEX, AddressBookRequestHandler, kwargs);
         (ADDRESSBOOK_ENTRY_REGEX, AddressBookEntryRequestHandler, kwargs) ]%list;
     app_settings := {| compress_response := true; serve_traceback := debug |};
     default_handler_class := DefaultRequestHandler;
     default_handler_args :=
       {| dk_logger := logger; dk_status_code := 404;
          dk_message := "Unknown Endpoint" |} |}.

(** The first route whose pattern matches the path, with its named groups. *)
Fixpoint find_route (routes : list (regex * handler_class * init_kwargs))
      (p : string)
    : option (handler_class * init_kwargs * list (string * string)) :=
  match routes with
  | [] => None
  | (pattern, cls, kw) :: routes' =>
      match re_match pattern p [] with
      | Some groups => Some (cls, kw, groups)
      | None => find_route routes' p
      end
  end.

(** [Application.find_handler]: the class that serves the request, its
    path arguments and its initialised instance. *)
Definition find_handler (app : Application) (req : HTTPServerRequest)
    : handler_class * list (string * string) * RequestHandler :=
  let fresh := new_handler (app_settings app) req in
  match find_route (handlers app) (path req) with
  | Some (cls, kw, groups) =>
      (cls, groups, BaseRequestHandler_initialize kw fresh)
  | None =>
      (default_handler_class app, [],
       DefaultRequestHandler_initialize (default_handler_args app) fresh)
  end.

(** The request up to the point where the framework takes over error
    handling: the outcome of [prepare] and of the verb. *)
Definition attempt (app : Application) (req : HTTPServerRequest) (s : S)
  : outcome unit * state S :=
  match find_handler app req with
  | (cls, path_kwargs, h) =>
      run_handler cls path_kwargs
        {| self := h; service_state := s; events := [] |}
  end.

(** One request served from start to end on collaborator state [s]. *)
Definition serve (app : Application) (req : HTTPServerRequest) (s : S)
    : state S :=
  match find_handler app req with
  | (cls, path_kwargs, h) =>
      snd (_execute cls path_kwargs
             {| self := h; service_state := s; events := [] |})
  end.

End Handlers.

Arguments serve {S} rt service LOGGER_NAME app req s.
Arguments attempt {S} rt service LOGGER_NAME app req s.
Arguments log_function {S} rt LOGGER_NAME handler _.
Arguments make_addrservice_app config debug logger : clear implicits.

(** ** Reading a served request *)

Section Observations.

Variable S : Type.

(** The response as the client gets it. *)
Definition response_status (st : state S) : Z := _status_code (self st).
Definition response_header (name : string) (st : state S) : option string :=
  assoc_get name (_headers (self st)).
Definition response_body (st : state S) : list dict := _write_buffer (self st).

(** The collaborator calls of the request, in order. *)
Fixpoint calls_in (evs : list event) : list service_call :=
  match evs with
  | [] => []
  | Called c :: evs' => c :: calls_in evs'
  | Logged _ :: evs' => calls_in evs'
  end.

(** The log records of the request, in order. *)
Fixpoint logs_in (evs : list event) : list LogRecord :=
  match evs with
  | [] => []
  | Logged r :: evs' => r :: logs_in evs'
  | Called _ :: evs' => logs_in evs'
  end.

Definition service_calls (st : state S) : list service_call :=
  calls_in (events st).

(** The [message] of the JSON body, when the body is one JSON object. *)
Definition response_message (st : state S) : option json :=
  match response_body st with
  | [d] => dict_get "message" d
  | _ => None
  end.

Definition log_records (st : state S) : list LogRecord :=
  logs_in (events st).

(** How an error response carries a message [msg] given as the reason of
    an [HTTPError]: as it is when it is a valid reason phrase; when it is
    empty, the standard phrase of the status stands in its place. *)
Definition message_sent (status_code : Z) (msg : string) (st : state S)
  : Prop :=
  (reason_phrase_ok msg = true -> response_message st = Some (JStr msg))
  /\ (msg = "" -> response_message st = Some (JStr (responses status_code))).

End Observations.

(** The requests the claims speak of: a verb on the collection, and a verb
    on the entry [id], the closing slash being optional in both. *)
Definition on_collection (m : http_method) (req : HTTPServerRequest) : Prop :=
  method req = m
  /\ (path req = "/addressbook" \/ path req = "/addressbook/").

Definition on_entry (m : http_method) (id : string) (req : HTTPServerRequest)
  : Prop :=
  method req = m
  /\ valid_id id = true
  /\ (path req = "/addressbook/" ++ id \/ path req = "/addressbook/" ++ id ++ "/").

(** ** Fixtures: a runtime and an in-memory collaborator

    Stand-ins that run, for the closed statements below.  The runtime
    decodes ASCII bodies and reports any other byte as an invalid start
    byte; its JSON reader knows the few documents listed; its [repr] is
    that of a str without quotes, backslashes or control characters. *)

Definition dquote : string := String (ascii_of_nat 34) EmptyString.

Definition hex_digit (n : N) : string :=
  match n with
  | 0%N => "0" | 1%N => "1" | 2%N => "2" | 3%N => "3" | 4%N => "4"
  | 5%N => "5" | 6%N => "6" | 7%N => "7" | 8%N => "8" | 9%N => "9"
  | 10%N => "a" | 11%N => "b" | 12%N => "c" | 13%N => "d" | 14%N => "e"
  | _ => "f"
  end.

Fixpoint sample_decode_from (pos : Z) (bs : list Byte.byte) : string + string :=
  match bs with
  | [] => inl EmptyString
  | b :: bs' =>
      let n := Byte.to_N b in
      if (n <? 128)%N then
        match sample_decode_from (pos + 1) bs' with
        | inl t => inl (String (ascii_of_byte b) t)
        | inr msg => inr msg
        end
      else
        inr ("'utf-8' codec can't decode byte 0x"
             ++ hex_digit (n / 16) ++ hex_digit (n mod 16)
             ++ " in position " ++ str_of_int pos ++ ": invalid start byte")
  end.

(** [{"name":"Ann","email":"a@x.com"}] *)
Definition ann_text : string :=
  "{" ++ dquote ++ "name" ++ dquote ++ ":" ++ dquote ++ "Ann" ++ dquote ++ ","
  ++ dquote ++ "email" ++ dquote ++ ":" ++ dquote ++ "a@x.com" ++ dquote ++ "}".

Definition ann : dict := [("name", JStr "Ann"); ("email", JStr "a@x.com")].

Definition sample_json_loads (text : string) : json + string :=
  if String.eqb text ann_text then inl (JDict ann)
  else if String.eqb text "{}" then inl (JDict [])
  else if String.eqb text "[]" then inl (JList [])
  else if String.eqb text "[1]" then inl (JList [JInt 1])
  else if String.eqb text "null" then inl JNull
  else inr "Expecting value: line 1 column 1 (char 0)".

Definition sample_runtime : PyRuntime :=
  {| bytes_decode_utf8 := sample_decode_from 0;
     json_loads := sample_json_loads;
     format_exception := fun e => ["Traceback (most recent call last):"; str_of_exc e];
     str_repr := fun s => "'" ++ s ++ "'";
     request_time_millis := fun _ => "1.5" |}.

(** The collaborator's state: the entries by identifier, the number of
    identifiers given out, readiness and the uptime clock. *)
Record book : Type := {
  entries : list (string * dict);
  issued : Z;
  ready : bool;
  uptime : Z
}.

Definition with_entries (es : list (string * dict)) (n : Z) (b : book) : book :=
  {| entries := es; issued := n; ready := ready b; uptime := uptime b |}.

Fixpoint assoc_remove {V} (key : string) (l : list (string * V))
  : list (string * V) :=
  match l with
  | [] => []
  | (k, w) :: l' =>
      if String.eqb k key then assoc_remove key l' else (k, w) :: assoc_remove key l'
  end.

(** An entry is accepted when it is a dict with a name. *)
Definition sample_validate (addr : json) : outcome dict :=
  match addr with
  | JDict d =>
      match dict_get "name" d with
      | Some _ => Ok d
      | None => Raise (PyExc ValueError "name is required")
      end
  | _ => Raise (PyExc TypeError "address entry must be a dict")
  end.

Definition sample_key_error (id : string) : pyexc :=
  PyExc KeyError ("'" ++ id ++ "'").

Definition sample_service : AddressBookService book :=
  {| uptime_millis := uptime;
     status := fun b => (Ok [("ready", JBool (ready b))], b);
     get_all_addresses :=
       fun b => (Ok (map (fun kv => (fst kv, JDict (snd kv))) (entries b)), b);
     post_address :=
       fun addr b =>
         match sample_validate addr with
         | Ok d =>
             let id := "id-" ++ str_of_int (issued b) in
             (Ok id, with_entries (assoc_set id d (entries b)) (issued b + 1) b)
         | Raise e => (Raise e, b)
         end;
     get_address :=
       fun id b =>
         match assoc_get id (entries b) with
         | Some d => (Ok d, b)
         | None => (Raise (sample_key_error id), b)
         end;
     put_address :=
       fun id addr b =>
         match assoc_get id (entries b) with
         | None => (Raise (sample_key_error id), b)
         | Some _ =>
             match sample_validate addr with
             | Ok d => (Ok tt, with_entries (assoc_set id d (entries b)) (issued b) b)
             | Raise e => (Raise e, b)
             end
         end;
     delete_address :=
       fun id b =>
         match assoc_get id (entries b) with
         | None => (Raise (sample_key_error id), b)
         | Some _ =>
             (Ok tt, with_entries (assoc_remove id (entries b)) (issued b) b)
         end |}.

Definition sample_book : book :=
  {| entries := [("abc123", ann)]; issued := 7; ready := true; uptime := 4200 |}.

Definition sample_app (debug : bool) : Application :=
  make_addrservice_app [] debug "addrservice".

Definition sample_request (m : http_method) (u : string) (b : list Byte.byte)
  : HTTPServerRequest :=
  {| method := m; uri := u; remote_ip := "127.0.0.1"; body := b |}.

Definition sample_serve (debug : bool) (m : http_method) (u : string)
    (b : list Byte.byte) (s : book) : state book :=
  serve sample_runtime sample_service "addrservice" (sample_app debug)
    (sample_request m u b) s.

(** A collaborator whose awaited methods all raise [e], and one that
    answers [status()] with the snapshot [info]: for the error paths. *)
Definition raising_service (e : pyexc) : AddressBookService unit :=
  {| uptime_millis := fun _ => 0;
     status := fun s => (Raise e, s);
     get_all_addresses := fun s => (Raise e, s);
     post_address := fun _ s => (Raise e, s);
     get_address := fun _ s => (Raise e, s);
     put_address := fun _ _ s => (Raise e, s);
     delete_address := fun _ s => (Raise e, s) |}.

(** A collaborator that accepts every entry under the identifier [id]. *)
Definition naming_service (id : string) : AddressBookService unit :=
  {| uptime_millis := fun _ => 0;
     status := fun s => (Ok [("ready", JBool true)], s);
     get_all_addresses := fun s => (Ok [], s);
     post_address := fun _ s => (Ok id, s);
     get_address := fun i s => (Raise (sample_key_error i), s);
     put_address := fun i _ s => (Raise (sample_key_error i), s);
     delete_address := fun i s => (Raise (sample_key_error i), s) |}.

Definition snapshot_service (info : dict) : AddressBookService unit :=
  {| uptime_millis := fun _ => 0;
     status := fun s => (Ok info, s);
     get_all_addresses := fun s => (Ok [], s);
     post_address := fun _ s => (Raise (PyExc RuntimeError "read only"), s);
     get_address := fun id s => (Raise (sample_key_error id), s);
     put_address := fun id _ s => (Raise (sample_key_error id), s);
     delete_address := fun id s => (Raise (sample_key_error id), s) |}.

(** * Properties *)

(** ** Route patterns *)

Example entry_regex_plain :
  re_match ADDRESSBOOK_ENTRY_REGEX "/addressbook/abc-123" [] = Some [("id", "abc-123")].
Proof. reflexivity. Qed.

Example entry_regex_slash :
  re_match ADDRESSBOOK_ENTRY_REGEX "/addressbook/Ab9/" [] = Some [("id", "Ab9")].
Proof. reflexivity. Qed.

Example entry_regex_rejects :
  re_match ADDRESSBOOK_ENTRY_REGEX "/addressbook/a_b" [] = None
  /\ re_match ADDRESSBOOK_ENTRY_REGEX "/addressbook/" [] = None
  /\ re_match ADDRESSBOOK_ENTRY_REGEX "/addressbook/a/b" [] = None.
Proof. repeat split; reflexivity. Qed.

Example collection_regex :
  re_match ADDRESSBOOK_REGEX "/addressbook" [] = Some []
  /\ re_match ADDRESSBOOK_REGEX "/addressbook/" [] = Some []
  /\ re_match ADDRESSBOOK_REGEX "/addressbook/x" [] = None.
Proof. repeat split; reflexivity. Qed.

Lemma snoc_append (t : string) (c : ascii) (s : string) :
  snoc t c ++ s = t ++ String c s.
Proof.
  unfold snoc. induction t as [|a t IH]; simpl; [reflexivity|].
  now rewrite IH.
Qed.

Lemma append_empty_r (s : string) : s ++ "" = s.
Proof. induction s as [|a s IH]; simpl; [reflexivity | now rewrite IH]. Qed.

(** A group that takes a whole run of class characters: when nothing more
    can be taken after the run and the rest of the pattern accepts what
    follows, that is the match. *)
Lemma plus_loop_all {R} (cls : ascii -> bool)
    (k : string -> string -> option R) (rest : string) (r : R) :
  forall (id taken : string),
    id <> "" ->
    all_chars cls id = true ->
    plus_loop cls k rest (taken ++ id) = None ->
    k rest (taken ++ id) = Some r ->
    plus_loop cls k (id ++ rest) taken = Some r.
Proof.
  induction id as [|c id IH]; intros taken Hne Hall Hstop Hk; [congruence|].
  simpl in Hall. apply andb_true_iff in Hall as [Hc Hall].
  simpl. rewrite Hc.
  destruct id as [|c' id'].
  - simpl. change (String c "") with (snoc "" c) in Hstop, Hk.
    assert (E : taken ++ snoc "" c = snoc taken c) by reflexivity.
    rewrite E in Hstop, Hk. now rewrite Hstop.
  - rewrite (IH (snoc taken c)); try rewrite snoc_append; auto; congruence.
Qed.

Lemma valid_id_inv (id : string) :
  valid_id id = true -> id <> "" /\ all_chars id_char id = true.
Proof.
  unfold valid_id. intros H. apply andb_true_iff in H as [Hne Hall].
  split; [|exact Hall]. intros ->. discriminate.
Qed.

(** The entry pattern on [/addressbook/<id>], with or without the closing
    slash: the group [id] is the path segment itself. *)
Lemma entry_regex_match (id : string) :
  valid_id id = true ->
  re_match ADDRESSBOOK_ENTRY_REGEX ("/addressbook/" ++ id) [] = Some [("id", id)]
  /\ re_match ADDRESSBOOK_ENTRY_REGEX ("/addressbook/" ++ id ++ "/") []
     = Some [("id", id)].
Proof.
  intros Hid. apply valid_id_inv in Hid as [Hne Hall].
  split; cbn -[plus_loop].
  - rewrite <- (append_empty_r id) at 1.
    apply plus_loop_all; auto.
  - apply plus_loop_all; auto.
Qed.

(** ** The route table of the application *)

Section Routes.

Variables (config : dict) (debug : bool) (lg : string).

Local Notation "'routes'" := (handlers (make_addrservice_app config debug lg)).
Local Notation "'kwargs'" := {| kw_config := config; kw_logger := lg |}.

Lemma route_healthz (p : string) :
  p = "/healthz" \/ p = "/healthz/" ->
  find_route routes p = Some (LivenessRequestHandler, kwargs, []).
Proof. intros [-> | ->]; reflexivity. Qed.

Lemma route_readiness (p : string) :
  p = "/readiness" \/ p = "/readiness/" ->
  find_route routes p = Some (ReadinessRequestHandler, kwargs, []).
Proof. intros [-> | ->]; reflexivity. Qed.

Lemma route_collection (p : string) :
  p = "/addressbook" \/ p = "/addressbook/" ->
  find_route routes p = Some (AddressBookRequestHandler, kwargs, []).
Proof. intros [-> | ->]; reflexivity. Qed.

Lemma route_entry (id p : string) :
  valid_id id = true ->
  p = "/addressbook/" ++ id \/ p = "/addressbook/" ++ id ++ "/" ->
  find_route routes p
  = Some (AddressBookEntryRequestHandler, kwargs, [("id", id)]).
Proof.
  intros Hid Hp.
  destruct (entry_regex_match id Hid) as [Hplain Hslash].
  assert (Hne : id <> "") by (apply valid_id_inv in Hid; tauto).
  unfold make_addrservice_app. cbn [handlers find_route].
  assert (H1 : re_match (lit "/healthz" ++ [OptChr "/"])%list p [] = None)
    by (destruct Hp as [-> | ->]; reflexivity).
  assert (H2 : re_match (lit "/readiness" ++ [OptChr "/"])%list p [] = None)
    by (destruct Hp as [-> | ->]; reflexivity).
  assert (H3 : re_match ADDRESSBOOK_REGEX p [] = None)
    by (destruct id; [congruence|]; destruct Hp as [-> | ->]; reflexivity).
  rewrite H1, H2, H3.
  destruct Hp as [-> | ->]; [rewrite Hplain | rewrite Hslash]; reflexivity.
Qed.

(** A route of the table never leads to the default handler, and every
    route hands the same arguments to [initialize]. *)
Lemma route_classes (p : string) (cls : handler_class) (kw : init_kwargs)
    (groups : list (string * string)) :
  find_route routes p = Some (cls, kw, groups) ->
  cls <> DefaultRequestHandler /\ kw = kwargs.
Proof.
  cbn [handlers find_route make_addrservice_app].
  repeat match goal with
         | |- context [re_match ?r ?t ?g] => destruct (re_match r t g)
         end;
    intros H; inversion H; subst; split; congruence.
Qed.

Lemma route_other (p : string) :
  p = "/nonexistent" -> find_route routes p = None.
Proof. intros ->. reflexivity. Qed.

End Routes.

(** ** Header values and reason phrases *)

Lemma id_char_header_char (c : ascii) :
  id_char c = true -> header_char c = true.
Proof.
  destruct c as [[] [] [] [] [] [] [] []]; vm_compute; intros H;
    first [reflexivity | discriminate H].
Qed.

Lemma all_id_chars_header_ok (id : string) :
  all_chars id_char id = true -> header_value_ok id = true.
Proof.
  induction id as [|c id IH]; simpl; [reflexivity|].
  intros H. apply andb_true_iff in H as [Hc Hid].
  now rewrite (id_char_header_char c Hc), IH.
Qed.

(** The canonical path of an entry identifier is a safe header value. *)
Lemma entry_uri_header_ok (id : string) :
  valid_id id = true ->
  header_value_ok (ADDRESSBOOK_ENTRY_URI_FORMAT_STR id) = true.
Proof.
  intros Hid. apply valid_id_inv in Hid as [_ Hall].
  unfold ADDRESSBOOK_ENTRY_URI_FORMAT_STR.
  simpl. now apply all_id_chars_header_ok.
Qed.

(** A reason phrase is not empty. *)
Lemma reason_phrase_not_empty (r : string) :
  reason_phrase_ok r = true -> String.eqb r "" = false.
Proof.
  unfold reason_phrase_ok. intros H. apply andb_true_iff in H as [H _].
  now apply negb_true_iff in H.
Qed.

(** ** Running a request *)

Ltac unfold_handlers :=
  unfold serve, find_handler, _execute, run_handler, prepare, verb_method,
    path_kwarg, _handle_request_exception, send_error,
    BaseRequestHandler_prepare, BaseRequestHandler_write_error,
    BaseRequestHandler_initialize, BaseRequestHandler_on_finish,
    DefaultRequestHandler_prepare, DefaultRequestHandler_initialize,
    LivenessRequestHandler_get, ReadinessRequestHandler_get,
    AddressBookRequestHandler_get, AddressBookRequestHandler_post,
    AddressBookEntryRequestHandler_get, AddressBookEntryRequestHandler_put,
    AddressBookEntryRequestHandler_delete,
    decode_body, loads, logger_debug, finish, write, clear, set_status,
    set_header, log_function, log, emit, call_service, modify_self, get_self,
    try_except, bind, ret, raise, new_handler, get_status, stored_reason.

Ltac step := cbn -[str_of_int String.append String.concat].

(** Case analysis on whatever the run of a request is waiting for: the
    result of a runtime or collaborator call, a test, the class of an
    exception. *)
Ltac explore :=
  step;
  repeat (match goal with
          | |- context [status ?svc ?s] =>
              destruct (status svc s) as [[?|?] ?]
          | |- context [get_all_addresses ?svc ?s] =>
              destruct (get_all_addresses svc s) as [[?|?] ?]
          | |- context [post_address ?svc ?a ?s] =>
              destruct (post_address svc a s) as [[?|?] ?]
          | |- context [get_address ?svc ?i ?s] =>
              destruct (get_address svc i s) as [[?|?] ?]
          | |- context [put_address ?svc ?i ?a ?s] =>
              destruct (put_address svc i a s) as [[[]|?] ?]
          | |- context [delete_address ?svc ?i ?s] =>
              destruct (delete_address svc i s) as [[[]|?] ?]
          | |- context [bytes_decode_utf8 ?r ?b] =>
              destruct (bytes_decode_utf8 r b)
          | |- context [json_loads ?r ?t] => destruct (json_loads r t)
          | |- context [truthy ?v] => destruct (truthy v)
          | |- context [match ?x with PyExc _ _ => _ | HTTPError _ _ => _ end] =>
              destruct x
          | |- context [match ?x with Some _ => _ | None => _ end] => destruct x
          | |- context [if ?c then _ else _] => destruct c eqn:?
          end; try congruence; step).

(** ** Which [except] clause fires *)



(** A body that is not UTF-8 raises an exception the first clause of
    [post] and [put] does not name, and the [ValueError] clause does. *)
Lemma unicode_error_clauses (msg : string) :
  isinstance (PyExc UnicodeDecodeError msg) JSONDecodeError = false
  /\ isinstance (PyExc UnicodeDecodeError msg) TypeError = false
  /\ isinstance (PyExc UnicodeDecodeError msg) KeyError = false
  /\ isinstance (PyExc UnicodeDecodeError msg) ValueError = true.
Proof. repeat split. Qed.

Section Claims.

Variable S : Type.
Variable rt : PyRuntime.
Variable service : AddressBookService S.
Variable LOGGER_NAME : string.
Variables (config : dict) (debug : bool) (lg : string).

Local Notation "'app'" := (make_addrservice_app config debug lg).
Local Notation "'served' req s" := (serve rt service LOGGER_NAME app req s)
  (at level 10, req at level 9, s at level 9).

Ltac route_collection H :=
  let Hm := fresh "Hm" in
  let Hp := fresh "Hp" in
  destruct H as [Hm Hp];
  unfold serve, attempt, find_handler;
  rewrite (route_collection config debug lg Hp);
  unfold_handlers; step; rewrite Hm; step.

Ltac route_entry H :=
  let Hm := fresh "Hm" in
  let Hid := fresh "Hid" in
  let Hp := fresh "Hp" in
  destruct H as (Hm & Hid & Hp);
  unfold serve, attempt, find_handler;
  rewrite (route_entry config debug lg Hid Hp);
  unfold_handlers; step; rewrite Hm; step.

(** The three ways the reason [m] of a raised [HTTPError] can go: empty,
    a valid reason phrase, or neither. *)
Ltac reason_cases r :=
  let m := fresh "m" in
  let Hm := fresh "Hm" in
  let E := fresh "Hempty" in
  let P := fresh "Hphrase" in
  unfold message_sent;
  remember r as m eqn:Hm in *; clear Hm;
  destruct (String.eqb_spec m "") as [E | E];
  [ subst m | destruct (reason_phrase_ok m) eqn:P ];
  step; destruct debug;
  repeat split; try reflexivity;
  try (intros; congruence);
  try (let H := fresh in intros H; cbv in H; discriminate H).

(** C1. A POST on the collection whose body decodes as JSON and whose
    value [post_address] accepts, returning the entry identifier [id], is
    answered 201 with the header [Location: /addressbook/<id>] and an empty
    body. *)
Theorem post_created (req : HTTPServerRequest) (s s' : S)
    (text : string) (addr : json) (id : string) :
  on_collection POST req ->
  bytes_decode_utf8 rt (body req) = inl text ->
  json_loads rt text = inl addr ->
  post_address service addr s = (Ok id, s') ->
  valid_id id = true ->
  response_status (served req s) = 201
  /\ response_header "Location" (served req s) = Some ("/addressbook/" ++ id)
  /\ response_body (served req s) = []
  /\ service_state (served req s) = s'.
Proof.
  intros Hreq Hdec Hjson Hpost Hid.
  apply entry_uri_header_ok in Hid.
  route_collection Hreq. rewrite Hdec. step.
  rewrite Hjson. step. rewrite Hpost. step. rewrite Hid. step.
  repeat split.
Qed.

(** Text that [json.loads] rejects: POST and PUT answer 400 with the
    message "Invalid JSON body", the collaborator is not called and its
    state is left as it was. *)
Lemma malformed_json_rejected (req : HTTPServerRequest) (s : S)
    (id text msg : string) :
  on_collection POST req \/ on_entry PUT id req ->
  bytes_decode_utf8 rt (body req) = inl text ->
  json_loads rt text = inr msg ->
  response_status (served req s) = 400
  /\ response_message (served req s) = Some (JStr "Invalid JSON body")
  /\ service_calls (served req s) = []
  /\ service_state (served req s) = s.
Proof.
  intros [Hreq | Hreq] Hdec Hjson.
  - route_collection Hreq. rewrite Hdec. step. rewrite Hjson. step.
    destruct debug; repeat split.
  - route_entry Hreq. rewrite Hdec. step. rewrite Hjson. step.
    destruct debug; repeat split.
Qed.

(** A body that is not UTF-8: the [UnicodeDecodeError] is a [ValueError]
    and not a [JSONDecodeError], so the answer is 400 with the codec's
    message. *)
Lemma undecodable_body_rejected (req : HTTPServerRequest) (s : S)
    (id msg : string) :
  on_collection POST req \/ on_entry PUT id req ->
  bytes_decode_utf8 rt (body req) = inr msg ->
  response_status (served req s) = 400
  /\ message_sent 400 msg (served req s)
  /\ service_calls (served req s) = []
  /\ service_state (served req s) = s.
Proof.
  intros [Hreq | Hreq] Hdec.
  - route_collection Hreq. rewrite Hdec. step. reason_cases msg.
  - route_entry Hreq. rewrite Hdec. step. reason_cases msg.
Qed.

(** A decoded value the collaborator turns down with a [TypeError]: it
    was handed to the collaborator, and the answer is 400 "Invalid JSON
    body". *)
Lemma type_error_rejected_post (req : HTTPServerRequest) (s s' : S)
    (text : string) (addr : json) (e : pyexc) :
  on_collection POST req ->
  bytes_decode_utf8 rt (body req) = inl text ->
  json_loads rt text = inl addr ->
  post_address service addr s = (Raise e, s') ->
  isinstance e TypeError = true ->
  response_status (served req s) = 400
  /\ response_message (served req s) = Some (JStr "Invalid JSON body")
  /\ service_calls (served req s) = [Call_post_address addr].
Proof.
  intros Hreq Hdec Hjson Hpost He.
  route_collection Hreq. rewrite Hdec. step. rewrite Hjson. step.
  rewrite Hpost. step. rewrite He, orb_true_r. step.
  destruct debug; repeat split.
Qed.

Lemma type_error_rejected_put (req : HTTPServerRequest) (s s' : S)
    (id text : string) (addr : json) (e : pyexc) :
  on_entry PUT id req ->
  bytes_decode_utf8 rt (body req) = inl text ->
  json_loads rt text = inl addr ->
  put_address service id addr s = (Raise e, s') ->
  isinstance e TypeError = true ->
  response_status (served req s) = 400
  /\ response_message (served req s) = Some (JStr "Invalid JSON body")
  /\ service_calls (served req s) = [Call_put_address id addr].
Proof.
  intros Hreq Hdec Hjson Hput He.
  route_entry Hreq. rewrite Hdec. step. rewrite Hjson. step.
  rewrite Hput. step. rewrite He, orb_true_r. step.
  destruct debug; repeat split.
Qed.

(** Whatever value the body decodes to, POST and PUT hand it to the
    collaborator, and that is their only call. *)
Lemma post_reaches_collaborator (req : HTTPServerRequest) (s : S)
    (text : string) (addr : json) :
  on_collection POST req ->
  bytes_decode_utf8 rt (body req) = inl text ->
  json_loads rt text = inl addr ->
  service_calls (served req s) = [Call_post_address addr].
Proof.
  intros Hreq Hdec Hjson.
  route_collection Hreq. rewrite Hdec. step. rewrite Hjson.
  explore; reflexivity.
Qed.

Lemma put_reaches_collaborator (req : HTTPServerRequest) (s : S)
    (id text : string) (addr : json) :
  on_entry PUT id req ->
  bytes_decode_utf8 rt (body req) = inl text ->
  json_loads rt text = inl addr ->
  service_calls (served req s) = [Call_put_address id addr].
Proof.
  intros Hreq Hdec Hjson.
  route_entry Hreq. rewrite Hdec. step. rewrite Hjson.
  explore; reflexivity.
Qed.



(** C2, amended. Text that [json.loads] rejects is answered 400 "Invalid
    JSON body" by POST and PUT without any call of the collaborator.  A body
    that decodes to a value of any type, a non-object included, is handed
    to the collaborator's create or update operation, and the answer is 400
    "Invalid JSON body" when the collaborator raises a type error on it. *)
Theorem invalid_json_body :
  (forall (req : HTTPServerRequest) (s : S) (id text msg : string),
      on_collection POST req \/ on_entry PUT id req ->
      bytes_decode_utf8 rt (body req) = inl text ->
      json_loads rt text = inr msg ->
      response_status (served req s) = 400
      /\ response_message (served req s) = Some (JStr "Invalid JSON body")
      /\ service_calls (served req s) = [])
  /\ (forall (req : HTTPServerRequest) (s : S) (text : string) (addr : json),
        on_collection POST req ->
        bytes_decode_utf8 rt (body req) = inl text ->
        json_loads rt text = inl addr ->
        service_calls (served req s) = [Call_post_address addr]
        /\ forall (e : pyexc) (s' : S),
             post_address service addr s = (Raise e, s') ->
             isinstance e TypeError = true ->
             response_status (served req s) = 400
             /\ response_message (served req s)
                = Some (JStr "Invalid JSON body"))
  /\ (forall (req : HTTPServerRequest) (s : S) (id text : string)
             (addr : json),
        on_entry PUT id req ->
        bytes_decode_utf8 rt (body req) = inl text ->
        json_loads rt text = inl addr ->
        service_calls (served req s) = [Call_put_address id addr]
        /\ forall (e : pyexc) (s' : S),
             put_address service id addr s = (Raise e, s') ->
             isinstance e TypeError = true ->
             response_status (served req s) = 400
             /\ response_message (served req s)
                = Some (JStr "Invalid JSON body")).
Proof.
  split; [|split].
  - intros req s id text msg Hreq Hdec Hjson.
    destruct (malformed_json_rejected s Hreq Hdec Hjson) as (H1 & H2 & H3 & _).
    auto.
  - intros req s text addr Hreq Hdec Hjson. split.
    + now apply post_reaches_collaborator with (text := text).
    + intros e s' Hpost He.
      destruct (type_error_rejected_post s Hreq Hdec Hjson Hpost He)
        as (H1 & H2 & _); auto.
  - intros req s id text addr Hreq Hdec Hjson. split.
    + now apply put_reaches_collaborator with (text := text).
    + intros e s' Hput He.
      destruct (type_error_rejected_put s Hreq Hdec Hjson Hput He)
        as (H1 & H2 & _); auto.
Qed.


(** C4, amended. GET on [/healthz] never fails: it is answered 200 with
    the JSON object whose one key, [uptime], holds the integer the
    collaborator's [uptime_millis()] reports. *)
Theorem healthz_uptime (req : HTTPServerRequest) (s : S) :
  method req = GET ->
  path req = "/healthz" \/ path req = "/healthz/" ->
  fst (attempt rt service LOGGER_NAME app req s) = Ok tt
  /\ response_status (served req s) = 200
  /\ response_body (served req s) = [[("uptime", JInt (uptime_millis service s))]].
Proof.
  intros Hm Hp. unfold serve, attempt, find_handler.
  rewrite (route_healthz config debug lg Hp).
  unfold_handlers. step. rewrite Hm. step. repeat split.
Qed.

(** The readiness status follows the truth value of [info['ready']]. *)
Lemma readiness_truthy (req : HTTPServerRequest) (s s' : S) (info : dict)
    (v : json) :
  method req = GET ->
  path req = "/readiness" \/ path req = "/readiness/" ->
  status service s = (Ok info, s') ->
  dict_get "ready" info = Some v ->
  response_status (served req s) = (if truthy v then 200 else 503)
  /\ response_body (served req s) = [info].
Proof.
  intros Hm Hp Hst Hready. unfold serve, find_handler.
  rewrite (route_readiness config debug lg Hp).
  unfold_handlers. step. rewrite Hm. step. rewrite Hst. step.
  rewrite Hready. step. destruct (truthy v); split; reflexivity.
Qed.

(** C5. GET on [/readiness] is answered 503 exactly when the snapshot of
    the collaborator's [status()] has [ready] false, and 200 otherwise; the
    body is the snapshot, unmodified. *)
Theorem readiness_status (req : HTTPServerRequest) (s s' : S) (info : dict)
    (b : bool) :
  method req = GET ->
  path req = "/readiness" \/ path req = "/readiness/" ->
  status service s = (Ok info, s') ->
  dict_get "ready" info = Some (JBool b) ->
  (response_status (served req s) = 503 <-> b = false)
  /\ (b <> false -> response_status (served req s) = 200)
  /\ response_body (served req s) = [info].
Proof.
  intros Hm Hp Hst Hready.
  destruct (readiness_truthy req s Hm Hp Hst Hready) as [Hs Hb].
  simpl in Hs. rewrite Hs.
  destruct b; (split; [split; intros; try congruence; try lia | split; auto]).
  congruence.
Qed.





(** C8, amended. A request that a route of the table matches gets, before
    anything else happens in its handler, a debug-level log line with its
    method, URI and caller IP.  A request that no route matches is handled
    by the default handler, which logs no debug line: its [prepare] fails at
    once with the configured 404 "Unknown Endpoint". *)
Theorem request_logged_first (req : HTTPServerRequest) (s : S) :
  (forall (cls : handler_class) (kw : init_kwargs)
          (groups : list (string * string)),
      find_route (handlers app) (path req) = Some (cls, kw, groups) ->
      exists rest : list event,
        events (served req s)
        = Logged {| lr_logger := lg;
                    lr_level := DEBUG;
                    lr_msg := "REQUEST: " ++ method_name (method req) ++ " "
                              ++ uri req ++ " (" ++ remote_ip req ++ ")";
                    lr_exc_info := false |} :: rest)
  /\ (find_route (handlers app) (path req) = None ->
      (forall r : LogRecord,
          In r (log_records (served req s)) -> lr_level r <> DEBUG)
      /\ response_status (served req s) = 404
      /\ response_message (served req s) = Some (JStr "Unknown Endpoint")).
Proof.
  split.
  - intros cls kw groups Hroute.
    destruct (route_classes _ _ _ _ Hroute) as [Hcls ->].
    unfold serve, find_handler. rewrite Hroute.
    destruct req as [m u ip b]. unfold_handlers.
    destruct cls; [congruence| | | |]; destruct m; explore;
      eexists; reflexivity.
  - intros Hroute. unfold serve, find_handler. rewrite Hroute.
    unfold_handlers. step.
    destruct debug; (split; [|split; reflexivity]);
      intros r [<- | []]; discriminate.
Qed.


(** ** The access logger *)

(** [log_function] adds one record to the trace and touches nothing else;
    the level follows the status, the text starts with [RESPOSE]. *)
Lemma log_function_record (handler : RequestHandler) (st : state S) :
  log_function rt LOGGER_NAME handler st
  = (Ok tt,
     {| self := self st;
        service_state := service_state st;
        events :=
          (events st
           ++ [Logged
                 {| lr_logger := match logger handler with
                                 | Some l => l
                                 | None => LOGGER_NAME
                                 end;
                    lr_level := if get_status handler <? 400 then INFO
                                else if get_status handler <? 500 then WARNING
                                else ERROR;
                    lr_msg := "RESPOSE: " ++ str_of_int (get_status handler)
                              ++ " " ++ method_name (method (request handler))
                              ++ " " ++ uri (request handler)
                              ++ " (" ++ remote_ip (request handler) ++ ") "
                              ++ request_time_millis rt (request handler)
                              ++ "ms";
                    lr_exc_info := true |}])%list |}).
Proof.
  unfold log_function, log, emit.
  destruct (get_status handler <? 400); [reflexivity|].
  destruct (get_status handler <? 500); reflexivity.
Qed.

Lemma access_log_severity (handler : RequestHandler) (st : state S) :
  exists r : LogRecord,
    events (snd (log_function rt LOGGER_NAME handler st))
    = (events st ++ [Logged r])%list
    /\ (get_status handler < 400 -> lr_level r = INFO)
    /\ (400 <= get_status handler < 500 -> lr_level r = WARNING)
    /\ (500 <= get_status handler -> lr_level r = ERROR).
Proof.
  rewrite log_function_record. eexists. split; [reflexivity|]. simpl.
  destruct (Z.ltb_spec (get_status handler) 400);
    destruct (Z.ltb_spec (get_status handler) 500);
    repeat split; intros; try reflexivity; lia.
Qed.


End Claims.

(** ** The claims on the fixtures *)

Ltac discharge :=
  repeat split; try reflexivity; try (left; reflexivity);
  try (right; reflexivity).

Ltac on_fixtures := unfold sample_serve, sample_app.

Lemma post_created_witness :
  on_collection POST
    (sample_request POST "/addressbook" (list_byte_of_string ann_text))
  /\ valid_id "id-7" = true
  /\ response_status
       (sample_serve false POST "/addressbook"
          (list_byte_of_string ann_text) sample_book) = 201
  /\ response_header "Location"
       (sample_serve false POST "/addressbook"
          (list_byte_of_string ann_text) sample_book)
     = Some "/addressbook/id-7"
  /\ response_body
       (sample_serve false POST "/addressbook"
          (list_byte_of_string ann_text) sample_book) = [].
Proof.
  split; [discharge|]. split; [reflexivity|]. on_fixtures.
  destruct (post_created sample_runtime sample_service "addrservice" []
              false "addrservice"
              (req := sample_request POST "/addressbook"
                        (list_byte_of_string ann_text))
              sample_book (text := ann_text) (addr := JDict ann)
              (id := "id-7")
              (s' := with_entries (assoc_set "id-7" ann (entries sample_book))
                       8 sample_book))
    as (H1 & H2 & H3 & _);
    [discharge | reflexivity | reflexivity | reflexivity | reflexivity |].
  repeat split; assumption.
Defined.

(** C2 as stated fails: the body [[]] decodes to a list, not an object,
    and the collaborator's create operation is called with it. *)
Lemma wrong_type_reaches_collaborator :
  bytes_decode_utf8 sample_runtime (list_byte_of_string "[]") = inl "[]"
  /\ json_loads sample_runtime "[]" = inl (JList [])
  /\ is_dict (JList []) = false
  /\ ~ (response_status
          (sample_serve false POST "/addressbook" (list_byte_of_string "[]")
             sample_book) = 400
        /\ response_message
             (sample_serve false POST "/addressbook"
                (list_byte_of_string "[]") sample_book)
           = Some (JStr "Invalid JSON body")
        /\ service_calls
             (sample_serve false POST "/addressbook"
                (list_byte_of_string "[]") sample_book) = []).
Proof.
  repeat split; try reflexivity.
  assert (E : service_calls
                (sample_serve false POST "/addressbook"
                   (list_byte_of_string "[]") sample_book)
              = [Call_post_address (JList [])]) by (vm_compute; reflexivity).
  intros (_ & _ & Hcalls). rewrite E in Hcalls. discriminate Hcalls.
Qed.

Lemma invalid_json_body_witness :
  (response_status
     (sample_serve false POST "/addressbook" (list_byte_of_string "{")
        sample_book) = 400
   /\ response_message
        (sample_serve false POST "/addressbook" (list_byte_of_string "{")
           sample_book) = Some (JStr "Invalid JSON body")
   /\ service_calls
        (sample_serve false POST "/addressbook" (list_byte_of_string "{")
           sample_book) = [])
  /\ (service_calls
        (sample_serve false POST "/addressbook" (list_byte_of_string "[]")
           sample_book) = [Call_post_address (JList [])]
      /\ response_status
           (sample_serve false POST "/addressbook" (list_byte_of_string "[]")
              sample_book) = 400)
  /\ (service_calls
        (sample_serve false PUT "/addressbook/abc123"
           (list_byte_of_string "[1]") sample_book)
      = [Call_put_address "abc123" (JList [JInt 1])]
      /\ response_message
           (sample_serve false PUT "/addressbook/abc123"
              (list_byte_of_string "[1]") sample_book)
         = Some (JStr "Invalid JSON body")).
Proof.
  on_fixtures.
  destruct (invalid_json_body sample_runtime sample_service "addrservice" []
              false "addrservice") as (Hbad & Hpost & Hput).
  split; [|split].
  - apply (Hbad (sample_request POST "/addressbook" (list_byte_of_string "{"))
             sample_book "" "{" "Expecting value: line 1 column 1 (char 0)");
      [left; discharge | reflexivity | reflexivity].
  - destruct (Hpost (sample_request POST "/addressbook"
                       (list_byte_of_string "[]"))
                sample_book "[]" (JList []))
      as [Hcalls Hresp]; [discharge | reflexivity | reflexivity |].
    split; [exact Hcalls|].
    apply (Hresp (PyExc TypeError "address entry must be a dict") sample_book);
      reflexivity.
  - destruct (Hput (sample_request PUT "/addressbook/abc123"
                      (list_byte_of_string "[1]"))
                sample_book "abc123" "[1]" (JList [JInt 1]))
      as [Hcalls Hresp]; [discharge | reflexivity | reflexivity |].
    split; [exact Hcalls|].
    apply (Hresp (PyExc TypeError "address entry must be a dict") sample_book);
      reflexivity.
Defined.



(** C4 as stated fails: the body of the liveness response has no key
    [uptime_millis]. *)
Lemma healthz_without_uptime_millis :
  ~ exists (d : dict) (v : json),
      response_body (sample_serve false GET "/healthz" [] sample_book) = [d]
      /\ dict_get "uptime_millis" d = Some v.
Proof.
  assert (E : response_body (sample_serve false GET "/healthz" [] sample_book)
              = [[("uptime", JInt 4200)]]) by (vm_compute; reflexivity).
  intros (d & v & Hbody & Hkey). rewrite E in Hbody.
  injection Hbody as <-. discriminate Hkey.
Qed.

Lemma healthz_uptime_witness :
  response_status (sample_serve false GET "/healthz" [] sample_book) = 200
  /\ response_body (sample_serve false GET "/healthz" [] sample_book)
     = [[("uptime", JInt 4200)]].
Proof.
  on_fixtures.
  destruct (healthz_uptime sample_runtime sample_service "addrservice" []
              false "addrservice" (sample_request GET "/healthz" [])
              sample_book)
    as (_ & Hs & Hb); [reflexivity | left; reflexivity |].
  split; [exact Hs | exact Hb].
Defined.

Lemma readiness_status_witness :
  response_status (sample_serve false GET "/readiness" [] sample_book) = 200
  /\ response_status
       (sample_serve false GET "/readiness" []
          {| entries := []; issued := 0; ready := false; uptime := 1 |}) = 503
  /\ response_body
       (sample_serve false GET "/readiness" []
          {| entries := []; issued := 0; ready := false; uptime := 1 |})
     = [[("ready", JBool false)]].
Proof.
  on_fixtures.
  destruct (readiness_status sample_runtime sample_service "addrservice" []
              false "addrservice" (sample_request GET "/readiness" [])
              sample_book (s' := sample_book)
              (info := [("ready", JBool true)]) (b := true))
    as (_ & Hup & _);
    [reflexivity | left; reflexivity | reflexivity | reflexivity |].
  destruct (readiness_status sample_runtime sample_service "addrservice" []
              false "addrservice" (sample_request GET "/readiness" [])
              {| entries := []; issued := 0; ready := false; uptime := 1 |}
              (s' := {| entries := []; issued := 0; ready := false;
                        uptime := 1 |})
              (info := [("ready", JBool false)]) (b := false))
    as (Hdown & _ & Hbody);
    [reflexivity | left; reflexivity | reflexivity | reflexivity |].
  split; [apply Hup; discriminate|].
  split; [apply Hdown; reflexivity | exact Hbody].
Defined.


(** C7. The access logger writes one line for a completed request, at the
    level its status calls for, but the line does not have the form
    [RESPONSE: ...]: the word is misspelt in [log_function].  On a GET of
    [/healthz] by 127.0.0.1 that took 1.5 ms: *)
Theorem access_log_line_misspelt :
  filter lr_exc_info
    (log_records (sample_serve false GET "/healthz" [] sample_book))
  = [ {| lr_logger := "addrservice";
         lr_level := INFO;
         lr_msg := "RESPOSE: 200 GET /healthz (127.0.0.1) 1.5ms";
         lr_exc_info := true |} ]
  /\ "RESPOSE: 200 GET /healthz (127.0.0.1) 1.5ms"
     <> "RESPONSE: 200 GET /healthz (127.0.0.1) 1.5ms".
Proof.
  split; [vm_compute; reflexivity|].
  intros H. apply String.eqb_eq in H. discriminate H.
Qed.

(** C8 as stated fails: a request to an unmatched route is handled by the
    default handler, and no debug-level line is logged for it. *)
Lemma unmatched_route_not_logged :
  find_route (handlers (sample_app false)) "/nonexistent" = None
  /\ ~ exists r : LogRecord,
         In r (log_records (sample_serve false GET "/nonexistent" [] sample_book))
         /\ lr_level r = DEBUG.
Proof.
  split; [reflexivity|].
  assert (E : map lr_level
                (log_records
                   (sample_serve false GET "/nonexistent" [] sample_book))
              = [WARNING]) by (vm_compute; reflexivity).
  intros (r & Hin & Hlvl).
  apply (in_map lr_level) in Hin. rewrite E, Hlvl in Hin.
  destruct Hin as [H | []]. discriminate H.
Qed.

Lemma request_logged_first_witness :
  (exists rest : list event,
      events (sample_serve false DELETE "/addressbook/abc123" [] sample_book)
      = Logged {| lr_logger := "addrservice";
                  lr_level := DEBUG;
                  lr_msg := "REQUEST: DELETE /addressbook/abc123 (127.0.0.1)";
                  lr_exc_info := false |} :: rest)
  /\ response_status (sample_serve false GET "/nonexistent" [] sample_book)
     = 404
  /\ response_message (sample_serve false GET "/nonexistent" [] sample_book)
     = Some (JStr "Unknown Endpoint").
Proof.
  on_fixtures.
  destruct (request_logged_first sample_runtime sample_service "addrservice"
              [] false "addrservice"
              (sample_request DELETE "/addressbook/abc123" []) sample_book)
    as (Hrouted & _).
  destruct (request_logged_first sample_runtime sample_service "addrservice"
              [] false "addrservice"
              (sample_request GET "/nonexistent" []) sample_book)
    as (_ & Hdefault).
  split.
  - exact (Hrouted AddressBookEntryRequestHandler
             {| kw_config := []; kw_logger := "addrservice" |}
             [("id", "abc123")] eq_refl).
  - destruct (Hdefault eq_refl) as (_ & Hs & Hm). split; assumption.
Defined.


(** C10. Body parsing does come before the collaborator, which is not
    called, and the stored state is unchanged; but a body that is not UTF-8
    is answered with the codec's message, not with "Invalid JSON body":
    its [UnicodeDecodeError] is caught by the [ValueError] clause.  On the
    one-byte body [0xff], for POST and for PUT: *)
Theorem undecodable_body_message :
  (response_status (sample_serve false POST "/addressbook" [Byte.xff] sample_book)
   = 400
   /\ response_message
        (sample_serve false POST "/addressbook" [Byte.xff] sample_book)
      = Some (JStr "'utf-8' codec can't decode byte 0xff in position 0: invalid start byte")
   /\ service_calls
        (sample_serve false POST "/addressbook" [Byte.xff] sample_book) = []
   /\ service_state
        (sample_serve false POST "/addressbook" [Byte.xff] sample_book)
      = sample_book)
  /\ (response_status
        (sample_serve false PUT "/addressbook/abc123" [Byte.xff] sample_book)
      = 400
      /\ response_message
           (sample_serve false PUT "/addressbook/abc123" [Byte.xff] sample_book)
         = Some (JStr "'utf-8' codec can't decode byte 0xff in position 0: invalid start byte")
      /\ service_calls
           (sample_serve false PUT "/addressbook/abc123" [Byte.xff] sample_book)
         = []
      /\ service_state
           (sample_serve false PUT "/addressbook/abc123" [Byte.xff] sample_book)
         = sample_book)
  /\ JStr "'utf-8' codec can't decode byte 0xff in position 0: invalid start byte"
     <> JStr "Invalid JSON body".
Proof.
  split; [|split].
  - on_fixtures.
    destruct (undecodable_body_rejected sample_runtime sample_service
                "addrservice" [] false "addrservice"
                (req := sample_request POST "/addressbook" [Byte.xff])
                sample_book (id := "")
                (msg := "'utf-8' codec can't decode byte 0xff in position 0: invalid start byte"))
      as (Hs & (Hm & _) & Hc & Hst); [left; discharge | reflexivity |].
    split; [exact Hs | split; [apply Hm; reflexivity | split; assumption]].
  - on_fixtures.
    destruct (undecodable_body_rejected sample_runtime sample_service
                "addrservice" [] false "addrservice"
                (req := sample_request PUT "/addressbook/abc123" [Byte.xff])
                sample_book (id := "abc123")
                (msg := "'utf-8' codec can't decode byte 0xff in position 0: invalid start byte"))
      as (Hs & (Hm & _) & Hc & Hst); [right; discharge | reflexivity |].
    split; [exact Hs | split; [apply Hm; reflexivity | split; assumption]].
  - intros H.
    apply (f_equal (fun j => match j with
                             | JStr m => String.eqb m "Invalid JSON body"
                             | _ => true
                             end)) in H.
    vm_compute in H. discriminate H.
Qed.

(** * Further properties *)

(** ** What the route patterns accept *)

Lemma plus_loop_inv {R} (cls : ascii -> bool)
    (k : string -> string -> option R) (r : R) :
  forall (s taken : string),
    plus_loop cls k s taken = Some r ->
    exists pre rest : string,
      s = pre ++ rest
      /\ pre <> ""
      /\ all_chars cls pre = true
      /\ k rest (taken ++ pre) = Some r.
Proof.
  induction s as [|c s IH]; intros taken H; simpl in H; [discriminate|].
  destruct (cls c) eqn:Hc; [|discriminate].
  destruct (plus_loop cls k s (snoc taken c)) as [g|] eqn:Hdeep.
  - injection H as ->.
    destruct (IH _ Hdeep) as (pre & rest & -> & Hne & Hall & Hk).
    exists (String c pre), rest. repeat split.
    + discriminate.
    + simpl. now rewrite Hc, Hall.
    + rewrite <- snoc_append. congruence.
  - exists (String c ""), s. repeat split.
    + discriminate.
    + simpl. now rewrite Hc.
    + exact H.
Qed.

Lemma re_match_lit_inv (l : string) (q : regex) :
  forall (p : string) (g0 g : list (string * string)),
    re_match (lit l ++ q)%list p g0 = Some g ->
    exists rest : string, p = l ++ rest /\ re_match q rest g0 = Some g.
Proof.
  induction l as [|c l IH]; intros p g0 g H.
  - exists p. split; [reflexivity | exact H].
  - simpl in H. destruct p as [|c' p]; [discriminate|].
    destruct (Ascii.eqb_spec c c') as [<-|]; [|discriminate].
    destruct (IH _ _ _ H) as (rest & -> & Hq).
    exists rest. split; [reflexivity | exact Hq].
Qed.

Lemma re_match_opt_inv (c : ascii) (rest : string)
    (g0 g : list (string * string)) :
  re_match [OptChr c] rest g0 = Some g ->
  (rest = "" \/ rest = String c "") /\ g = g0.
Proof.
  simpl. destruct rest as [|c' rest].
  - intros H. injection H as <-. auto.
  - destruct (Ascii.eqb_spec c c') as [<-|].
    + destruct rest; intros H; [injection H as <-; auto | discriminate].
    + discriminate.
Qed.

(** What a path accepted by the entry pattern looks like. *)
Lemma entry_regex_inv (p : string) (groups : list (string * string)) :
  re_match ADDRESSBOOK_ENTRY_REGEX p [] = Some groups ->
  exists id : string,
    valid_id id = true
    /\ groups = [("id", id)]
    /\ (p = "/addressbook/" ++ id \/ p = "/addressbook/" ++ id ++ "/").
Proof.
  intros H. unfold ADDRESSBOOK_ENTRY_REGEX in H.
  apply re_match_lit_inv in H as (rest & -> & H).
  cbn [re_match] in H.
  apply plus_loop_inv in H as (id & tail & -> & Hne & Hall & H).
  apply re_match_opt_inv in H as [Htail ->].
  exists id. split; [|split].
  - unfold valid_id. rewrite Hall, andb_true_r.
    destruct id; [congruence | reflexivity].
  - reflexivity.
  - destruct Htail as [-> | ->]; [left | right]; [|reflexivity].
    now rewrite append_empty_r.
Qed.

(** X1. The entry pattern accepts a path exactly when it is
    [/addressbook/<id>] or [/addressbook/<id>/] for an identifier made of
    one or more characters of [[a-zA-Z0-9-]], and the group [id] is then
    that identifier. *)
Theorem entry_regex_exact (p : string) (groups : list (string * string)) :
  re_match ADDRESSBOOK_ENTRY_REGEX p [] = Some groups
  <-> exists id : string,
        valid_id id = true
        /\ groups = [("id", id)]
        /\ (p = "/addressbook/" ++ id \/ p = "/addressbook/" ++ id ++ "/").
Proof.
  split.
  - apply entry_regex_inv.
  - intros (id & Hid & -> & Hp).
    destruct (entry_regex_match id Hid) as [Hplain Hslash].
    destruct Hp as [-> | ->]; assumption.
Qed.

(** X2. The route table serves nothing but the eight declared path forms:
    whatever path a route matches is [/healthz], [/readiness],
    [/addressbook] or [/addressbook/<id>] with an optional closing slash,
    and it is handed to the handler class declared for that form. *)
Theorem route_table_sound (config : dict) (debug : bool) (lg : string)
    (p : string) (cls : handler_class) (kw : init_kwargs)
    (groups : list (string * string)) :
  find_route (handlers (make_addrservice_app config debug lg)) p
  = Some (cls, kw, groups) ->
  (cls = LivenessRequestHandler /\ groups = []
   /\ (p = "/healthz" \/ p = "/healthz/"))
  \/ (cls = ReadinessRequestHandler /\ groups = []
      /\ (p = "/readiness" \/ p = "/readiness/"))
  \/ (cls = AddressBookRequestHandler /\ groups = []
      /\ (p = "/addressbook" \/ p = "/addressbook/"))
  \/ (cls = AddressBookEntryRequestHandler
      /\ exists id : string,
           valid_id id = true /\ groups = [("id", id)]
           /\ (p = "/addressbook/" ++ id \/ p = "/addressbook/" ++ id ++ "/")).
Proof.
  cbn [handlers find_route make_addrservice_app].
  destruct (re_match (lit "/healthz" ++ [OptChr "/"])%list p []) eqn:H1.
  { intros H. injection H as <- <- <-. left.
    apply re_match_lit_inv in H1 as (rest & -> & H1).
    apply re_match_opt_inv in H1 as [[-> | ->] ->]; auto. }
  destruct (re_match (lit "/readiness" ++ [OptChr "/"])%list p []) eqn:H2.
  { intros H. injection H as <- <- <-. right; left.
    apply re_match_lit_inv in H2 as (rest & -> & H2).
    apply re_match_opt_inv in H2 as [[-> | ->] ->]; auto. }
  destruct (re_match ADDRESSBOOK_REGEX p []) eqn:H3.
  { intros H. injection H as <- <- <-. right; right; left.
    unfold ADDRESSBOOK_REGEX in H3.
    apply re_match_lit_inv in H3 as (rest & -> & H3).
    apply re_match_opt_inv in H3 as [[-> | ->] ->]; auto. }
  destruct (re_match ADDRESSBOOK_ENTRY_REGEX p []) eqn:H4; [|discriminate].
  intros H. injection H as <- <- <-. right; right; right.
  split; [reflexivity|]. now apply entry_regex_inv.
Qed.

(** ** What every served request has in common *)

Ltac settle :=
  repeat match goal with
         | |- _ /\ _ => split
         | |- _ \/ _ =>
             first [ left; solve [settle] | right; solve [settle] ]
         | |- exists _, _ => eexists
         | |- Forall _ _ => constructor
         | |- (_ <= _)%nat => simpl; lia
         | |- _ = _ => reflexivity
         | |- True => exact I
         end.

Section Extras.

Variable S : Type.
Variable rt : PyRuntime.
Variable service : AddressBookService S.
Variable LOGGER_NAME : string.
Variables (config : dict) (debug : bool) (lg : string).

Local Notation "'app'" := (make_addrservice_app config debug lg).
Local Notation "'served' req s" := (serve rt service LOGGER_NAME app req s)
  (at level 10, req at level 9, s at level 9).

Ltac route_collection H :=
  let Hm := fresh "Hm" in
  let Hp := fresh "Hp" in
  destruct H as [Hm Hp];
  unfold serve, attempt, find_handler;
  rewrite (route_collection config debug lg Hp);
  unfold_handlers; step; rewrite Hm; step.

Ltac route_entry H :=
  let Hm := fresh "Hm" in
  let Hid := fresh "Hid" in
  let Hp := fresh "Hp" in
  destruct H as (Hm & Hid & Hp);
  unfold serve, attempt, find_handler;
  rewrite (route_entry config debug lg Hid Hp);
  unfold_handlers; step; rewrite Hm; step.

Ltac reason_cases r :=
  let m := fresh "m" in
  let Hm := fresh "Hm" in
  let E := fresh "Hempty" in
  let P := fresh "Hphrase" in
  unfold message_sent;
  remember r as m eqn:Hm in *; clear Hm;
  destruct (String.eqb_spec m "") as [E | E];
  [ subst m | destruct (reason_phrase_ok m) eqn:P ];
  step; destruct debug;
  repeat split; try reflexivity;
  try (intros; congruence);
  try (let H := fresh in intros H; cbv in H; discriminate H).

(** Every way a request can go, route by route and verb by verb. *)
Ltac all_requests req :=
  let Hroute := fresh "Hroute" in
  let Hcls := fresh "Hcls" in
  let cls := fresh "cls" in
  let m := fresh "m" in
  unfold serve, find_handler;
  destruct (find_route (handlers app) (path req)) as [[[cls ?kw] ?groups]|]
    eqn:Hroute;
  [ destruct (route_classes _ _ _ _ Hroute) as [Hcls ->]; clear Hroute;
    destruct req as [m ?u ?ip ?b]; unfold_handlers;
    destruct cls; [congruence| | | |]; destruct m; explore
  | clear Hroute; destruct req as [m ?u ?ip ?b]; unfold_handlers; explore ].

(** X3. GET on the collection is answered 200 with the collection the
    collaborator's [get_all_addresses] returns as its JSON body; that call
    is the only one made. *)
Theorem collection_listing (req : HTTPServerRequest) (s s' : S)
    (all_addrs : dict) :
  on_collection GET req ->
  get_all_addresses service s = (Ok all_addrs, s') ->
  response_status (served req s) = 200
  /\ response_body (served req s) = [all_addrs]
  /\ response_header "Content-Type" (served req s)
     = Some "application/json; charset=UTF-8"
  /\ service_calls (served req s) = [Call_get_all_addresses]
  /\ service_state (served req s) = s'.
Proof.
  intros Hreq Hall. route_collection Hreq. rewrite Hall. step.
  repeat split.
Qed.


(** X15. A POST whose entry was created under an identifier that is not
    a safe header value (it has a control character) is answered 400, not
    201: [set_header] raises a value error inside the [try] of [post], after
    the collaborator's call, so the entry exists and the response carries
    no [Location]. *)
Theorem post_unsafe_identifier (req : HTTPServerRequest) (s s' : S)
    (text : string) (addr : json) (id : string) :
  on_collection POST req ->
  bytes_decode_utf8 rt (body req) = inl text ->
  json_loads rt text = inl addr ->
  post_address service addr s = (Ok id, s') ->
  header_value_ok (ADDRESSBOOK_ENTRY_URI_FORMAT_STR id) = false ->
  response_status (served req s) = 400
  /\ response_header "Location" (served req s) = None
  /\ service_calls (served req s) = [Call_post_address addr]
  /\ service_state (served req s) = s'.
Proof.
  intros Hreq Hdec Hjson Hpost Hid.
  route_collection Hreq. rewrite Hdec. step. rewrite Hjson. step.
  rewrite Hpost. step. rewrite Hid. explore; repeat split.
Qed.

(** X5. An exception of the collaborator that the verb's [except] clauses
    do not name is not swallowed: it ends as a 500 "Internal Server
    Error".  That is any exception but a key error for GET and DELETE on an
    entry, any but a key, value or type error for PUT, any but a value or
    type error for POST (a key error included), and any exception at all
    for GET on the collection. *)
Theorem unnamed_exception_is_500 (s s' : S) (c : exc_class) (m : string) :
  (forall (req : HTTPServerRequest) (id : string),
      on_entry GET id req ->
      get_address service id s = (Raise (PyExc c m), s') ->
      issubclass c KeyError = false ->
      response_status (served req s) = 500
      /\ response_message (served req s)
         = Some (JStr "Internal Server Error"))
  /\ (forall (req : HTTPServerRequest) (id : string),
        on_entry DELETE id req ->
        delete_address service id s = (Raise (PyExc c m), s') ->
        issubclass c KeyError = false ->
        response_status (served req s) = 500
        /\ response_message (served req s)
           = Some (JStr "Internal Server Error"))
  /\ (forall (req : HTTPServerRequest) (id text : string) (addr : json),
        on_entry PUT id req ->
        bytes_decode_utf8 rt (body req) = inl text ->
        json_loads rt text = inl addr ->
        put_address service id addr s = (Raise (PyExc c m), s') ->
        issubclass c KeyError = false ->
        issubclass c ValueError = false ->
        issubclass c TypeError = false ->
        response_status (served req s) = 500
        /\ response_message (served req s)
           = Some (JStr "Internal Server Error"))
  /\ (forall (req : HTTPServerRequest) (text : string) (addr : json),
        on_collection POST req ->
        bytes_decode_utf8 rt (body req) = inl text ->
        json_loads rt text = inl addr ->
        post_address service addr s = (Raise (PyExc c m), s') ->
        issubclass c ValueError = false ->
        issubclass c TypeError = false ->
        response_status (served req s) = 500
        /\ response_message (served req s)
           = Some (JStr "Internal Server Error"))
  /\ (forall req : HTTPServerRequest,
        on_collection GET req ->
        get_all_addresses service s = (Raise (PyExc c m), s') ->
        response_status (served req s) = 500
        /\ response_message (served req s)
           = Some (JStr "Internal Server Error")).
Proof.
  repeat apply conj.
  - intros req id Hreq Hget Hk. route_entry Hreq. rewrite Hget. step.
    rewrite Hk. step. destruct debug; split; reflexivity.
  - intros req id Hreq Hdel Hk. route_entry Hreq. rewrite Hdel. step.
    rewrite Hk. step. destruct debug; split; reflexivity.
  - intros req id text addr Hreq Hdec Hjson Hput Hk Hv Ht.
    assert (Hj : issubclass c JSONDecodeError = false)
      by (destruct c; cbv in Hv |- *; congruence).
    route_entry Hreq. rewrite Hdec. step. rewrite Hjson. step.
    rewrite Hput. step. rewrite Hj, Ht, Hk, Hv. step.
    destruct debug; split; reflexivity.
  - intros req text addr Hreq Hdec Hjson Hpost Hv Ht.
    assert (Hj : issubclass c JSONDecodeError = false)
      by (destruct c; cbv in Hv |- *; congruence).
    route_collection Hreq. rewrite Hdec. step. rewrite Hjson. step.
    rewrite Hpost. step. rewrite Hj, Ht, Hv. step.
    destruct debug; split; reflexivity.
  - intros req Hreq Hall. route_collection Hreq. rewrite Hall. step.
    destruct debug; split; reflexivity.
Qed.

(** X6. A status snapshot without the key [ready] makes the lookup fail
    after the collaborator was asked: the request ends as a 500 "Internal
    Server Error". *)
Theorem readiness_missing_ready (req : HTTPServerRequest) (s s' : S)
    (info : dict) :
  method req = GET ->
  path req = "/readiness" \/ path req = "/readiness/" ->
  status service s = (Ok info, s') ->
  dict_get "ready" info = None ->
  response_status (served req s) = 500
  /\ response_message (served req s) = Some (JStr "Internal Server Error")
  /\ service_calls (served req s) = [Call_status].
Proof.
  intros Hm Hp Hst Hready. unfold serve, find_handler.
  rewrite (route_readiness config debug lg Hp).
  unfold_handlers. step. rewrite Hm. step. rewrite Hst. step.
  rewrite Hready. step.
  destruct debug; repeat split.
Qed.

(** X7. The readiness status follows the Python truth value of [ready],
    not its being the boolean false: 503 exactly when the value is falsy,
    so also for [null], [0], the empty string, list or object; the body is
    the snapshot in every case. *)
Theorem readiness_by_truth_value (req : HTTPServerRequest) (s s' : S)
    (info : dict) (v : json) :
  method req = GET ->
  path req = "/readiness" \/ path req = "/readiness/" ->
  status service s = (Ok info, s') ->
  dict_get "ready" info = Some v ->
  (response_status (served req s) = 503 <-> truthy v = false)
  /\ (response_status (served req s) = 200 <-> truthy v = true)
  /\ (In v [JNull; JBool false; JInt 0; JStr ""; JList []; JDict []] ->
      response_status (served req s) = 503)
  /\ response_body (served req s) = [info].
Proof.
  intros Hm Hp Hst Hready.
  destruct (readiness_truthy rt service LOGGER_NAME config debug lg
              req s Hm Hp Hst Hready) as [Hs Hb].
  rewrite Hs. repeat split; try assumption.
  - destruct (truthy v); congruence.
  - intros ->. reflexivity.
  - destruct (truthy v); congruence.
  - intros ->. reflexivity.
  - intros Hin.
    assert (Hf : truthy v = false).
    { simpl in Hin. decompose [or] Hin; subst; try reflexivity; contradiction. }
    now rewrite Hf.
Qed.

(** X8. A verb that the class of the route does not define is answered
    405 "Method Not Allowed" without any call of the collaborator: only
    GET on the health routes, GET and POST on the collection, GET, PUT and
    DELETE on an entry get further. *)
Theorem undefined_verb_405 (req : HTTPServerRequest) (s : S)
    (cls : handler_class) (kw : init_kwargs)
    (groups : list (string * string)) :
  find_route (handlers app) (path req) = Some (cls, kw, groups) ->
  match cls with
  | LivenessRequestHandler | ReadinessRequestHandler => method req <> GET
  | AddressBookRequestHandler => method req <> GET /\ method req <> POST
  | AddressBookEntryRequestHandler =>
      method req <> GET /\ method req <> PUT /\ method req <> DELETE
  | DefaultRequestHandler => False
  end ->
  response_status (served req s) = 405
  /\ response_message (served req s) = Some (JStr "Method Not Allowed")
  /\ service_calls (served req s) = []
  /\ service_state (served req s) = s.
Proof.
  intros Hroute Hverb.
  destruct (route_classes _ _ _ _ Hroute) as [Hcls ->].
  unfold serve, find_handler. rewrite Hroute. clear Hroute.
  destruct req as [m u ip b]. simpl in Hverb.
  destruct cls; try contradiction; destruct m;
    try (exfalso; clear - Hverb; intuition congruence);
    destruct debug; repeat split; vm_compute; reflexivity.
Qed.

(** X9. A request that no route matches never reaches the collaborator,
    whatever its verb and body: the state is untouched and the answer is
    the envelope of a 404 "Unknown Endpoint" for the request's method and
    path. *)
Theorem unmatched_route_untouched (req : HTTPServerRequest) (s : S) :
  find_route (handlers app) (path req) = None ->
  service_calls (served req s) = []
  /\ service_state (served req s) = s
  /\ exists d : dict,
       response_body (served req s) = [d]
       /\ dict_get "method" d = Some (JStr (method_name (method req)))
       /\ dict_get "uri" d = Some (JStr (path req))
       /\ dict_get "code" d = Some (JInt 404)
       /\ dict_get "message" d = Some (JStr "Unknown Endpoint").
Proof.
  intros Hroute. unfold serve, find_handler. rewrite Hroute.
  unfold_handlers. step.
  destruct debug; (split; [reflexivity | split; [reflexivity|]]);
    eexists; repeat split.
Qed.


(** X11. A [Location] header leaves the service only on the 201 of a
    POST, with an empty body: no error response carries one. *)
Theorem location_only_on_created (req : HTTPServerRequest) (s : S)
    (l : string) :
  response_header "Location" (served req s) = Some l ->
  response_status (served req s) = 201
  /\ method req = POST
  /\ response_body (served req s) = [].
Proof.
  revert l.
  assert (H : response_header "Location" (served req s) = None
              \/ (response_status (served req s) = 201
                  /\ method req = POST
                  /\ response_body (served req s) = []))
    by (all_requests req; settle).
  intros l Hl. destruct H as [H | H]; [congruence | exact H].
Qed.

(** What the trace of a request is made of, event by event. *)
Lemma trace_events (req : HTTPServerRequest) (s : S) :
  Forall (fun ev => match ev with
                    | Logged r => lr_logger r = lg
                    | Called _ => True
                    end)
    (events (served req s)).
Proof. all_requests req; settle. Qed.

Lemma logs_in_logger (evs : list event) :
  Forall (fun ev => match ev with
                    | Logged r => lr_logger r = lg
                    | Called _ => True
                    end) evs ->
  Forall (fun r => lr_logger r = lg) (logs_in evs).
Proof.
  induction 1 as [|[r|c] evs Hev _ IH]; simpl; auto.
Qed.

(** X12. Every log record of a request, for the default handler as for
    the routed ones, goes to the logger the application was made with: the
    fallback to the logger named [LOGGER_NAME] in [log_function] is never
    taken. *)
Theorem injected_logger_only (req : HTTPServerRequest) (s : S) :
  Forall (fun r => lr_logger r = lg) (log_records (served req s)).
Proof. apply logs_in_logger, trace_events. Qed.

(** X13. A request makes at most one call on the collaborator, whatever
    the collaborator answers and whatever error follows. *)
Theorem at_most_one_call (req : HTTPServerRequest) (s : S) :
  service_calls (served req s) = []
  \/ exists c : service_call, service_calls (served req s) = [c].
Proof.
  unfold service_calls. remember calls_in as calls eqn:Hcalls.
  all_requests req; subst calls; settle.
Qed.





End Extras.

(** ** The further properties on the fixtures *)

Lemma entry_regex_exact_witness :
  exists id : string,
    valid_id id = true
    /\ ("/addressbook/Ab-9/" = "/addressbook/" ++ id
        \/ "/addressbook/Ab-9/" = "/addressbook/" ++ id ++ "/").
Proof.
  destruct (proj1 (entry_regex_exact "/addressbook/Ab-9/" [("id", "Ab-9")])
              eq_refl) as (id & Hid & _ & Hp).
  exists id. split; assumption.
Defined.

Lemma route_table_sound_witness :
  find_route (handlers (sample_app false)) "/addressbook/abc123/"
  = Some (AddressBookEntryRequestHandler,
          {| kw_config := []; kw_logger := "addrservice" |},
          [("id", "abc123")])
  /\ exists id : string,
       valid_id id = true
       /\ ("/addressbook/abc123/" = "/addressbook/" ++ id
           \/ "/addressbook/abc123/" = "/addressbook/" ++ id ++ "/").
Proof.
  split; [reflexivity|].
  destruct (route_table_sound [] false "addrservice" "/addressbook/abc123/"
              (cls := AddressBookEntryRequestHandler)
              (kw := {| kw_config := []; kw_logger := "addrservice" |})
              (groups := [("id", "abc123")]) eq_refl)
    as [(H & _) | [(H & _) | [(H & _) | (_ & id & Hid & _ & Hp)]]];
    try discriminate H.
  exists id. split; assumption.
Defined.

Lemma collection_listing_witness :
  response_status (sample_serve false GET "/addressbook" [] sample_book) = 200
  /\ response_body (sample_serve false GET "/addressbook" [] sample_book)
     = [[("abc123", JDict ann)]].
Proof.
  on_fixtures.
  destruct (collection_listing sample_runtime sample_service "addrservice"
              [] false "addrservice"
              (req := sample_request GET "/addressbook" []) sample_book
              (s' := sample_book) (all_addrs := [("abc123", JDict ann)]))
    as (Hs & Hb & _); [discharge | reflexivity |].
  split; assumption.
Defined.


Lemma post_unsafe_identifier_witness :
  header_value_ok ("/addressbook/" ++ "a" ++ newline ++ "b") = false
  /\ response_status
       (serve sample_runtime (naming_service ("a" ++ newline ++ "b"))
          "addrservice" (sample_app false)
          (sample_request POST "/addressbook" (list_byte_of_string ann_text))
          tt) = 400
  /\ response_header "Location"
       (serve sample_runtime (naming_service ("a" ++ newline ++ "b"))
          "addrservice" (sample_app false)
          (sample_request POST "/addressbook" (list_byte_of_string ann_text))
          tt) = None.
Proof.
  split; [reflexivity|]. unfold sample_app.
  destruct (post_unsafe_identifier sample_runtime
              (naming_service ("a" ++ newline ++ "b"))
              "addrservice" [] false "addrservice"
              (req := sample_request POST "/addressbook"
                        (list_byte_of_string ann_text))
              tt (s' := tt) (text := ann_text) (addr := JDict ann)
              (id := "a" ++ newline ++ "b"))
    as (Hs & Hl & _);
    [discharge | reflexivity | reflexivity | reflexivity | reflexivity |].
  split; [exact Hs | exact Hl].
Defined.

Lemma unnamed_exception_is_500_witness :
  response_status
    (serve sample_runtime (raising_service (PyExc RuntimeError "storage down"))
       "addrservice" (sample_app false)
       (sample_request GET "/addressbook/abc123" []) tt) = 500
  /\ response_status
       (serve sample_runtime
          (raising_service (PyExc RuntimeError "storage down"))
          "addrservice" (sample_app false)
          (sample_request PUT "/addressbook/abc123"
             (list_byte_of_string ann_text)) tt) = 500
  /\ response_status
       (serve sample_runtime
          (raising_service (PyExc RuntimeError "storage down"))
          "addrservice" (sample_app false)
          (sample_request GET "/addressbook" []) tt) = 500
  /\ response_status
       (serve sample_runtime (raising_service (PyExc KeyError "'abc123'"))
          "addrservice" (sample_app false)
          (sample_request POST "/addressbook" (list_byte_of_string ann_text))
          tt) = 500
  /\ response_status
       (serve sample_runtime (raising_service (PyExc ValueError "bad"))
          "addrservice" (sample_app false)
          (sample_request DELETE "/addressbook/abc123" []) tt) = 500.
Proof.
  unfold sample_app.
  destruct (unnamed_exception_is_500 sample_runtime
              (raising_service (PyExc RuntimeError "storage down"))
              "addrservice" [] false "addrservice" tt tt RuntimeError
              "storage down") as (Hget & _ & Hput & _ & Hall).
  destruct (unnamed_exception_is_500 sample_runtime
              (raising_service (PyExc KeyError "'abc123'"))
              "addrservice" [] false "addrservice" tt tt KeyError
              "'abc123'") as (_ & _ & _ & Hpost & _).
  destruct (unnamed_exception_is_500 sample_runtime
              (raising_service (PyExc ValueError "bad"))
              "addrservice" [] false "addrservice" tt tt ValueError
              "bad") as (_ & Hdel & _ & _ & _).
  destruct (Hget (sample_request GET "/addressbook/abc123" []) "abc123")
    as (G & _); [discharge | reflexivity | reflexivity |].
  destruct (Hput (sample_request PUT "/addressbook/abc123"
                    (list_byte_of_string ann_text))
              "abc123" ann_text (JDict ann))
    as (P & _);
    [discharge | reflexivity | reflexivity | reflexivity | reflexivity
    | reflexivity | reflexivity |].
  destruct (Hall (sample_request GET "/addressbook" []))
    as (A & _); [discharge | reflexivity |].
  destruct (Hpost (sample_request POST "/addressbook"
                     (list_byte_of_string ann_text)) ann_text (JDict ann))
    as (Q & _);
    [discharge | reflexivity | reflexivity | reflexivity | reflexivity
    | reflexivity |].
  destruct (Hdel (sample_request DELETE "/addressbook/abc123" []) "abc123")
    as (D & _); [discharge | reflexivity | reflexivity |].
  repeat split; assumption.
Defined.

Lemma readiness_missing_ready_witness :
  response_status
    (serve sample_runtime (snapshot_service [("alive", JBool true)])
       "addrservice" (sample_app false)
       (sample_request GET "/readiness" []) tt) = 500.
Proof.
  unfold sample_app.
  destruct (readiness_missing_ready sample_runtime
              (snapshot_service [("alive", JBool true)])
              "addrservice" [] false "addrservice"
              (sample_request GET "/readiness" []) tt (s' := tt)
              (info := [("alive", JBool true)]))
    as (Hs & _); [reflexivity | left; reflexivity | reflexivity | reflexivity |].
  exact Hs.
Defined.

Lemma readiness_by_truth_value_witness :
  response_status
    (serve sample_runtime (snapshot_service [("ready", JInt 0)])
       "addrservice" (sample_app false)
       (sample_request GET "/readiness" []) tt) = 503
  /\ response_status
       (serve sample_runtime (snapshot_service [("ready", JStr "false")])
          "addrservice" (sample_app false)
          (sample_request GET "/readiness" []) tt) = 200.
Proof.
  unfold sample_app.
  destruct (readiness_by_truth_value sample_runtime
              (snapshot_service [("ready", JInt 0)])
              "addrservice" [] false "addrservice"
              (sample_request GET "/readiness" []) tt (s' := tt)
              (info := [("ready", JInt 0)]) (v := JInt 0))
    as (_ & _ & Hfalsy & _);
    [reflexivity | left; reflexivity | reflexivity | reflexivity |].
  destruct (readiness_by_truth_value sample_runtime
              (snapshot_service [("ready", JStr "false")])
              "addrservice" [] false "addrservice"
              (sample_request GET "/readiness" []) tt (s' := tt)
              (info := [("ready", JStr "false")]) (v := JStr "false"))
    as (_ & Htruthy & _ & _);
    [reflexivity | left; reflexivity | reflexivity | reflexivity |].
  split.
  - apply Hfalsy. simpl. auto.
  - apply Htruthy. reflexivity.
Defined.

Lemma undefined_verb_405_witness :
  response_status (sample_serve false PUT "/healthz" [] sample_book) = 405
  /\ response_status
       (sample_serve false DELETE "/addressbook" [] sample_book) = 405
  /\ response_status
       (sample_serve false POST "/addressbook/abc123"
          (list_byte_of_string ann_text) sample_book) = 405
  /\ service_calls
       (sample_serve false POST "/addressbook/abc123"
          (list_byte_of_string ann_text) sample_book) = [].
Proof.
  on_fixtures.
  destruct (undefined_verb_405 sample_runtime sample_service "addrservice"
              [] false "addrservice" (sample_request PUT "/healthz" [])
              sample_book (cls := LivenessRequestHandler)
              (kw := {| kw_config := []; kw_logger := "addrservice" |})
              (groups := []))
    as (H1 & _); [reflexivity | discriminate |].
  destruct (undefined_verb_405 sample_runtime sample_service "addrservice"
              [] false "addrservice" (sample_request DELETE "/addressbook" [])
              sample_book (cls := AddressBookRequestHandler)
              (kw := {| kw_config := []; kw_logger := "addrservice" |})
              (groups := []))
    as (H2 & _); [reflexivity | split; discriminate |].
  destruct (undefined_verb_405 sample_runtime sample_service "addrservice"
              [] false "addrservice"
              (sample_request POST "/addressbook/abc123"
                 (list_byte_of_string ann_text))
              sample_book (cls := AddressBookEntryRequestHandler)
              (kw := {| kw_config := []; kw_logger := "addrservice" |})
              (groups := [("id", "abc123")]))
    as (H3 & _ & H4 & _); [reflexivity | repeat split; discriminate |].
  repeat split; assumption.
Defined.

Lemma unmatched_route_untouched_witness :
  service_calls
    (sample_serve false DELETE "/addressbook/a_b" [] sample_book) = []
  /\ service_state
       (sample_serve false DELETE "/addressbook/a_b" [] sample_book)
     = sample_book.
Proof.
  on_fixtures.
  destruct (unmatched_route_untouched sample_runtime sample_service
              "addrservice" [] false "addrservice"
              (sample_request DELETE "/addressbook/a_b" []) sample_book)
    as (Hc & Hs & _); [reflexivity|].
  split; assumption.
Defined.

Lemma location_only_on_created_witness :
  response_status
    (sample_serve false POST "/addressbook" (list_byte_of_string ann_text)
       sample_book) = 201.
Proof.
  on_fixtures.
  destruct (location_only_on_created sample_runtime sample_service
              "addrservice" [] false "addrservice"
              (sample_request POST "/addressbook"
                 (list_byte_of_string ann_text))
              sample_book (l := "/addressbook/id-7"))
    as (Hs & _); [reflexivity|].
  exact Hs.
Defined.
